(** * Feature engineering of the Super Bowl predictor, embedded in Rocq

    Source: [src/features/engineer.py] (class [FeatureEngineer]) and the part
    of [src/main.py] that builds the per-team histories and the training set.

    Modelling choices.
    - A pandas float is an exact rational ([Qc]) or [NaN]: the tables, the
      features and the training set are computed without rounding, and there
      "mean" is the exact arithmetic mean.  Module [Binary64] holds the
      rolling mean as pandas computes it on IEEE 754 binary64 numbers, for
      the one statement whose truth depends on rounding.
    - A team's statistics table is a list of rows in positional order; a row
      has its [week] and a string-keyed map of its other columns, since the
      smoother adds columns whose names are computed from the window size.
      The pandas index plays no role on the modelled paths and is left out.
    - A Python exception is a value of [PyError]; a function that may raise
      returns a [result].
    - [sort_values('week')] is a stable ascending sort.  When the weeks of a
      table are pairwise different every sorting algorithm returns the same
      table.
    - The pandas primitives ([rolling(..).mean()], [iloc[-1]], [pd.concat],
      column reads and writes) are modelled by their documented behaviour. *)

From Stdlib Require Import ZArith QArith Qcanon Lqa.
From Stdlib Require Floats.
From stdpp Require Import base option list gmap strings pretty.

Local Open Scope Z_scope.

(** ** Exceptions and results *)

(** A [ValueError] carries the check that failed, without the numbers pandas
    prints in its message. *)
Inductive PyError :=
  | KeyError (key : string)
  | IndexError
  | ValueError (msg : string).

Inductive result (A : Type) :=
  | Ok (a : A)
  | Err (e : PyError).
Arguments Ok {A} a.
Arguments Err {A} e.

#[global] Instance result_ret : MRet result := λ A a, Ok a.
#[global] Instance result_bind : MBind result := λ A B f m,
  match m with Ok a => f a | Err e => Err e end.
#[global] Instance result_fmap : FMap result := λ A B f m,
  match m with Ok a => Ok (f a) | Err e => Err e end.

(** Left-to-right loop with an accumulator: [for x in l: acc = f acc x]. *)
Fixpoint foldM {A B} (f : B → A → result B) (acc : B) (l : list A) : result B :=
  match l with
  | [] => Ok acc
  | x :: l' => acc' ← f acc x; foldM f acc' l'
  end.

(** ** Numbers, cells and series *)

Inductive cell :=
  | Num (q : Qc)
  | NaN.

#[global] Instance cell_eq_dec : EqDecision cell.
Proof. solve_decision. Defined.

Definition Qc_of_Z (z : Z) : Qc := Q2Qc (inject_Z z).

(** Float arithmetic: [NaN] is absorbing. *)
Definition cell_sub (a b : cell) : cell :=
  match a, b with
  | Num x, Num y => Num (x - y)%Qc
  | _, _ => NaN
  end.

Definition cell_mul (a b : cell) : cell :=
  match a, b with
  | Num x, Num y => Num (x * y)%Qc
  | _, _ => NaN
  end.

Definition cell_neg (a : cell) : cell :=
  match a with
  | Num x => Num (- x)%Qc
  | NaN => NaN
  end.

Abbreviation Series := (list cell).

Definition sum_Qc (l : list Qc) : Qc := foldr Qcplus (Qc_of_Z 0) l.

(** The values of a window that are not [NaN]. *)
Definition observations (win : Series) : list Qc :=
  omap (λ c, match c with Num q => Some q | NaN => None end) win.

(** [mean()] of one window: the mean of its observations when there are at
    least [min_periods] of them (and at least one), [NaN] otherwise. *)
Definition window_mean (min_periods : Z) (win : Series) : cell :=
  let obs := observations win in
  let nobs := Z.of_nat (length obs) in
  if (min_periods <=? nobs) && (0 <? nobs)
  then Num (sum_Qc obs / Qc_of_Z nobs)%Qc
  else NaN.

(** The trailing window of [w] positions that ends at position [i]. *)
Definition window_at (w i : nat) (xs : Series) : Series :=
  drop (S i - w) (take (S i) xs).

(** [xs.rolling(window=window, min_periods=min_periods).mean()].
    [rolling] validates its arguments when it is called, whatever the
    series holds. *)
Definition rolling_mean (window min_periods : Z) (xs : Series) : result Series :=
  if min_periods <? 0 then Err (ValueError "min_periods must be >= 0")
  else if window <? min_periods then Err (ValueError "min_periods must be <= window")
  else if window <? 0 then Err (ValueError "window must be an integer 0 or greater")
  else Ok (map (λ i, window_mean min_periods (window_at (Z.to_nat window) i xs))
               (seq 0 (length xs))).

(** ** Tables *)

Record Row := mkRow { week : Z; vals : gmap string cell }.

Abbreviation DataFrame := (list Row).

(** [df[col]] *)
Definition row_get (col : string) (r : Row) : result cell :=
  match vals r !! col with
  | Some c => Ok c
  | None => Err (KeyError col)
  end.

Definition getitem (col : string) (df : DataFrame) : result Series :=
  mapM (row_get col) df.

(** [df[name] = s], for a series [s] that has the index of [df]. *)
Definition setitem (name : string) (s : Series) (df : DataFrame) : DataFrame :=
  zip_with (λ r c, mkRow (week r) (<[name := c]> (vals r))) df s.

Fixpoint insert_by_week (r : Row) (df : DataFrame) : DataFrame :=
  match df with
  | [] => [r]
  | r' :: df' =>
      if week r <=? week r' then r :: df else r' :: insert_by_week r df'
  end.

(** [df.sort_values('week')]: a new table, the argument is not changed. *)
Definition sort_values_week (df : DataFrame) : DataFrame :=
  foldr insert_by_week [] df.

(** [df[df['week'] < w]] *)
Definition before_week (w : Z) (df : DataFrame) : DataFrame :=
  filter (λ r, week r < w) df.

(** [df.iloc[-1]] *)
Definition iloc_last (df : DataFrame) : result Row :=
  match last df with
  | Some r => Ok r
  | None => Err IndexError
  end.

(** ** class FeatureEngineer *)

Record FeatureEngineer := mkFeatureEngineer { window_size : Z }.

(** [__init__(self, window_size=5)] stores its argument unchecked. *)
Definition FeatureEngineer_init (window_size : option Z) : FeatureEngineer :=
  mkFeatureEngineer (default 5 window_size).

Definition rolling_cols : list string :=
  ["points"; "epa"; "success"; "def_epa"; "pts_allowed"; "turnovers"; "sacks"].

(** [f'{col}_rolling_{self.window_size}'] *)
Definition rolling_name (self : FeatureEngineer) (col : string) : string :=
  col +:+ "_rolling_" +:+ pretty (window_size self).

(** One pass of the loop of [create_rolling_features]. *)
Definition add_rolling (self : FeatureEngineer) (team_stats : DataFrame)
    (col : string) : result DataFrame :=
  s ← getitem col team_stats;
  r ← rolling_mean (window_size self) 1 s;
  mret (setitem (rolling_name self col) r team_stats).

Definition create_rolling_features (self : FeatureEngineer)
    (team_stats : DataFrame) : result DataFrame :=
  let team_stats := sort_values_week team_stats in
  foldM (add_rolling self) team_stats rolling_cols.

(** A one-row-per-game table of named features; it has no [week] column,
    so its rows are plain string-keyed maps. *)
Abbreviation FeatureRow := (gmap string cell).
Abbreviation FeatureFrame := (list (gmap string cell)).

(** [t1[a] - t2[a]]: the left operand is read first. *)
Definition diff_of (t1 t2 : Row) (name : string) : result cell :=
  a ← row_get name t1;
  b ← row_get name t2;
  mret (cell_sub a b).

Definition create_matchup_features (self : FeatureEngineer)
    (team1_stats team2_stats : DataFrame) : result FeatureFrame :=
  t1 ← iloc_last team1_stats;
  t2 ← iloc_last team2_stats;
  let col := rolling_name self in
  pts_diff ← diff_of t1 t2 (col "points");
  epa_diff ← diff_of t1 t2 (col "epa");
  success_diff ← diff_of t1 t2 (col "success");
  turnover_diff ← diff_of t1 t2 (col "turnovers");
  t1_epa ← row_get (col "epa") t1;
  t2_epa ← row_get (col "epa") t2;
  t1_success ← row_get (col "success") t1;
  t2_success ← row_get (col "success") t2;
  def_epa_diff ← diff_of t1 t2 (col "def_epa");
  pts_allowed_diff ← diff_of t1 t2 (col "pts_allowed");
  sacks_diff ← diff_of t1 t2 (col "sacks");
  t1_points ← row_get (col "points") t1;
  t1_allowed ← row_get (col "pts_allowed") t1;
  t2_points ← row_get (col "points") t2;
  t2_allowed ← row_get (col "pts_allowed") t2;
  let features : FeatureRow :=
    <["pts_diff" := pts_diff]> (
    <["epa_diff" := epa_diff]> (
    <["success_diff" := success_diff]> (
    <["turnover_diff" := turnover_diff]> (
    <["t1_epa" := t1_epa]> (
    <["t2_epa" := t2_epa]> (
    <["t1_success" := t1_success]> (
    <["t2_success" := t2_success]> (
    <["def_epa_diff" := cell_mul def_epa_diff (Num (Qc_of_Z 2))]> (
    <["pts_allowed_diff" := cell_mul pts_allowed_diff (Num (Qc_of_Z 2))]> (
    <["sacks_diff" := cell_mul sacks_diff (Num (Qc_of_Z 2))]> (
    <["net_pts_diff" :=
        cell_sub (cell_sub t1_points t1_allowed)
                 (cell_sub t2_points t2_allowed)]> ∅))))))))))) in
  mret [features].

(** ** The schedule and the training set *)

Record ScheduledGame := mkGame {
  game_type : string;
  game_week : Z;
  home_team : string;
  away_team : string;
  home_score : Z;
  away_score : Z
}.

(** [d[key]] on a Python dict. *)
Definition dict_get {A} (d : gmap string A) (key : string) : result A :=
  match d !! key with
  | Some a => Ok a
  | None => Err (KeyError key)
  end.

(** [features[name] = scalar]: the scalar fills the column. *)
Definition set_scalar (name : string) (c : cell) (f : FeatureFrame) : FeatureFrame :=
  map (λ row, <[name := c]> row) f.

(** [pd.concat(frames, ignore_index=True)] for tables with the same columns;
    pandas refuses an empty list of tables. *)
Definition pd_concat (frames : list FeatureFrame) : result FeatureFrame :=
  match frames with
  | [] => Err (ValueError "No objects to concatenate")
  | _ => Ok (concat frames)
  end.

(** The body of the loop of [prepare_training_data] for one game: [None] is
    [continue], [Some features] is what the pass appends to
    [training_data]. *)
Definition game_features (self : FeatureEngineer)
    (all_team_stats : gmap string DataFrame) (game : ScheduledGame)
    : result (option FeatureFrame) :=
  let week := game_week game in
  home ← dict_get all_team_stats (home_team game);
  let home_stats := before_week week home in
  away ← dict_get all_team_stats (away_team game);
  let away_stats := before_week week away in
  if ((length home_stats <? 3) || (length away_stats <? 3))%nat then mret None
  else
    features ← create_matchup_features self home_stats away_stats;
    let features :=
      set_scalar "home_win"
        (Num (Qc_of_Z (if home_score game >? away_score game then 1 else 0)))
        features in
    let features :=
      set_scalar "point_diff"
        (Num (Qc_of_Z (home_score game - away_score game))) features in
    mret (Some features).

(** The list [training_data] when the loop ends. *)
Definition training_data (self : FeatureEngineer)
    (all_team_stats : gmap string DataFrame) (schedules : list ScheduledGame)
    : result (list FeatureFrame) :=
  let completed := filter (λ g, game_type g = "REG") schedules in
  foldM (λ acc game,
           o ← game_features self all_team_stats game;
           mret (match o with Some features => acc ++ [features] | None => acc end))
        [] completed.

Definition prepare_training_data (self : FeatureEngineer)
    (all_team_stats : gmap string DataFrame) (schedules : list ScheduledGame)
    : result FeatureFrame :=
  training_data ← training_data self all_team_stats schedules;
  pd_concat training_data.

(** ** [main]: the per-team histories handed to the assembler *)

(** [schedules['home_team'].unique()]: first occurrences, in order. *)
Fixpoint unique (l : list string) : list string :=
  match l with
  | [] => []
  | x :: l' => x :: filter (λ y, y ≠ x) (unique l')
  end.

Section main.
(** [fetcher.get_team_season_stats(team, schedules, pbp)] belongs to the
    data source ([src/data/fetch_data.py]), outside the feature-engineering
    core; here it is a parameter that returns a team's raw weekly table. *)
Variable get_team_season_stats : string → DataFrame.

(** Lines 40-46 of [main]: every home team's table, smoothed over the
    whole season. *)
Definition build_all_team_stats (engineer : FeatureEngineer)
    (schedules : list ScheduledGame) : result (gmap string DataFrame) :=
  let all_teams := unique (map home_team schedules) in
  foldM (λ all_team_stats team,
           let stats := get_team_season_stats team in
           stats ← create_rolling_features engineer stats;
           mret (<[team := stats]> all_team_stats))
        ∅ all_teams.

(** Lines 40-48 of [main]. *)
Definition training_df (engineer : FeatureEngineer)
    (schedules : list ScheduledGame) : result FeatureFrame :=
  all_team_stats ← build_all_team_stats engineer schedules;
  prepare_training_data engineer all_team_stats schedules.
End main.

(** ** The smoother on references

    Python passes tables by reference, and a column write changes the table
    in place.  This module runs [create_rolling_features] on a store of
    tables, to see which tables a call changes.  [Stuck] is a read of a
    reference that the store does not hold, which no Python program does. *)
Module Refs.
Abbreviation loc := nat.
Abbreviation store := (gmap nat DataFrame).

Inductive outcome (A : Type) :=
  | Returns (a : A) (σ : store)
  | Raises (e : PyError) (σ : store)
  | Stuck.
Arguments Returns {A} a σ.
Arguments Raises {A} e σ.
Arguments Stuck {A}.

Definition M (A : Type) : Type := store → outcome A.

#[global] Instance M_ret : MRet M := λ A a σ, Returns a σ.
#[global] Instance M_bind : MBind M := λ A B f m σ,
  match m σ with
  | Returns a σ' => f a σ'
  | Raises e σ' => Raises e σ'
  | Stuck => Stuck
  end.

(** A computation on values: it raises or returns, the store stays. *)
Definition lift {A} (r : result A) : M A := λ σ,
  match r with Ok a => Returns a σ | Err e => Raises e σ end.

Definition read (l : loc) : M DataFrame := λ σ,
  match σ !! l with Some df => Returns df σ | None => Stuck end.

Definition alloc (df : DataFrame) : M loc := λ σ,
  let l := fresh (dom σ) in Returns l (<[l := df]> σ).

Definition write (l : loc) (df : DataFrame) : M unit := λ σ,
  match σ !! l with Some _ => Returns () (<[l := df]> σ) | None => Stuck end.

(** [team_stats.sort_values('week')] returns a new table. *)
Definition sort_values_week (team_stats : loc) : M loc :=
  df ← read team_stats; alloc (sort_values_week df).

Definition getitem (col : string) (team_stats : loc) : M Series :=
  df ← read team_stats; lift (getitem col df).

(** [team_stats[name] = s] writes into the table [team_stats] refers to. *)
Definition setitem (name : string) (s : Series) (team_stats : loc) : M unit :=
  df ← read team_stats; write team_stats (setitem name s df).

Fixpoint for_each {A} (body : A → M unit) (l : list A) : M unit :=
  match l with
  | [] => mret ()
  | x :: l' => _ ← body x; for_each body l'
  end.

(** One pass of the loop: read the column, smooth it, write the new column
    into the same table. *)
Definition smooth_column (self : FeatureEngineer) (team_stats : loc)
    (col : string) : M unit :=
  s ← getitem col team_stats;
  r ← lift (rolling_mean (window_size self) 1 s);
  setitem (rolling_name self col) r team_stats.

Definition create_rolling_features (self : FeatureEngineer)
    (team_stats : loc) : M loc :=
  team_stats ← sort_values_week team_stats;
  _ ← for_each (smooth_column self team_stats) rolling_cols;
  mret team_stats.
End Refs.


(** ** Vocabulary of the statements *)

(** Weeks in ascending order, ties allowed. *)
Fixpoint ascending (ws : list Z) : Prop :=
  match ws with
  | [] => True
  | z :: ws' => Forall (Z.le z) ws' ∧ ascending ws'
  end.

(** The raw number a row holds in column [col]. *)
Definition raw_value (col : string) (r : Row) : Qc :=
  match vals r !! col with
  | Some (Num q) => q
  | _ => Qc_of_Z 0
  end.

Definition raw_values (col : string) (df : DataFrame) : list Qc :=
  map (raw_value col) df.

(** A series of TeamWeekStat: every row holds a number in each of the seven
    raw statistics. *)
Definition numeric_stats (df : DataFrame) : bool :=
  forallb (λ r, forallb (λ c, match vals r !! c with
                              | Some (Num _) => true
                              | _ => false
                              end) rolling_cols) df.

(** Every row has the seven raw columns (their cells may be [NaN]). *)
Definition has_raw_columns (df : DataFrame) : bool :=
  forallb (λ r, forallb (λ c, bool_decide (is_Some (vals r !! c))) rolling_cols) df.

Definition raw_present (df : DataFrame) : Prop :=
  Forall (λ r, ∀ c, c ∈ rolling_cols → is_Some (vals r !! c)) df.

Definition arithmetic_mean (xs : list Qc) : Qc :=
  (sum_Qc xs / Qc_of_Z (Z.of_nat (length xs)))%Qc.

(** The values of [xs] at positions [lo] through [hi] inclusive. *)
Definition positions (lo hi : nat) (xs : list Qc) : list Qc :=
  map (λ j, nth j xs (Qc_of_Z 0)) (seq lo (S hi - lo)).

(** [max(0, i - window + 1)] *)
Definition trailing_start (window : Z) (i : nat) : nat :=
  Z.to_nat (Z.max 0 (Z.of_nat i - window + 1)).

(** Following the words of the specification: the arithmetic mean of a raw
    field over positions [max(0, i-window+1)] through [i]. *)
Definition trailing_mean (window : Z) (xs : list Qc) (i : nat) : Qc :=
  arithmetic_mean (positions (trailing_start window i) i xs).

(** The smoothed value of raw field [f] in a row: [r[f'{f}_rolling_{W}']]. *)
Definition smoothed (self : FeatureEngineer) (r : Row) (f : string) : cell :=
  default NaN (vals r !! rolling_name self f).

(** The row has the seven smoothed columns of this engineer's window. *)
Definition has_smoothed (self : FeatureEngineer) (r : Row) : bool :=
  forallb (λ f, bool_decide (is_Some (vals r !! rolling_name self f)))
          rolling_cols.

Definition diff_fields : list string :=
  ["pts_diff"; "epa_diff"; "success_diff"; "turnover_diff";
   "def_epa_diff"; "pts_allowed_diff"; "sacks_diff"; "net_pts_diff"].

Definition two : cell := Num (Qc_of_Z 2).

(** The number of a team's rows before week [w]. *)
Definition prior_weeks (w : Z) (df : DataFrame) : nat :=
  length (before_week w df).

(** The two tables hold the same rows before week [w] (or are both absent). *)
Definition same_before (w : Z) (o o' : option DataFrame) : Prop :=
  match o, o' with
  | Some h, Some h' => before_week w h = before_week w h'
  | None, None => True
  | _, _ => False
  end.

(** Two data sources give the two teams of a game the same rows before the
    game's week; they may differ in every row of that week or later. *)
Definition same_prior_weeks (fetch fetch' : string → DataFrame)
    (game : ScheduledGame) : Prop :=
  before_week (game_week game) (fetch (home_team game)) =
  before_week (game_week game) (fetch' (home_team game)) ∧
  before_week (game_week game) (fetch (away_team game)) =
  before_week (game_week game) (fetch' (away_team game)).

(** ** A small season for the examples *)

Definition stat_row (w points pts_allowed turnovers sacks : Z)
    (epa success def_epa : Q) : Row :=
  mkRow w
    (<["points" := Num (Qc_of_Z points)]> (
     <["epa" := Num (Q2Qc epa)]> (
     <["success" := Num (Q2Qc success)]> (
     <["def_epa" := Num (Q2Qc def_epa)]> (
     <["pts_allowed" := Num (Qc_of_Z pts_allowed)]> (
     <["turnovers" := Num (Qc_of_Z turnovers)]> (
     <["sacks" := Num (Qc_of_Z sacks)]> ∅))))))).

(** Weeks 1-5 of one team, handed over out of order. *)
Definition SEA_stats : DataFrame :=
  [ stat_row 3 17 20 1 2 (1 # 20) (9 # 20) (-1 # 50);
    stat_row 1 20 17 0 3 (1 # 10) (1 # 2) (-1 # 20);
    stat_row 2 24 21 2 1 (3 # 20) (12 # 25) (1 # 25);
    stat_row 5 31 10 0 5 (1 # 4) (11 # 20) (-1 # 10);
    stat_row 4 28 14 1 4 (1 # 5) (13 # 25) (-3 # 50) ].

Definition NE_stats : DataFrame :=
  [ stat_row 1 14 20 2 1 (-1 # 20) (2 # 5) (1 # 10);
    stat_row 2 10 24 3 0 (-1 # 10) (19 # 50) (3 # 20);
    stat_row 3 21 17 1 2 (1 # 20) (11 # 25) 0;
    stat_row 4 17 23 1 3 0 (21 # 50) (1 # 20);
    stat_row 5 20 13 0 2 (1 # 10) (9 # 20) (-1 # 50) ].

(** The same two teams with other numbers from week 4 on. *)
Definition SEA_stats_alt : DataFrame :=
  before_week 4 SEA_stats ++
  [ stat_row 6 3 45 4 0 (-1 # 2) (1 # 10) (1 # 2);
    stat_row 4 0 52 5 0 (-3 # 5) (1 # 20) (3 # 5) ].

Definition NE_stats_alt : DataFrame :=
  stat_row 4 45 0 0 9 (1 # 2) (4 # 5) (-1 # 2) :: before_week 4 NE_stats.

Definition fetch_season (team : string) : DataFrame :=
  if decide (team = "SEA") then SEA_stats
  else if decide (team = "NE") then NE_stats else [].

Definition fetch_season_alt (team : string) : DataFrame :=
  if decide (team = "SEA") then SEA_stats_alt
  else if decide (team = "NE") then NE_stats_alt else [].

Definition engineer5 : FeatureEngineer := FeatureEngineer_init None.

Definition game_week4 : ScheduledGame := mkGame "REG" 4 "SEA" "NE" 24 10.
Definition game_week6 : ScheduledGame := mkGame "REG" 6 "SEA" "NE" 24 10.
Definition game_tie : ScheduledGame := mkGame "REG" 6 "NE" "SEA" 10 10.

Definition sample_schedule : list ScheduledGame :=
  [ game_week4; mkGame "REG" 5 "NE" "SEA" 10 10; mkGame "SB" 22 "SEA" "NE" 29 13 ].

(** The table a call returns, or the empty table when it raises. *)
Definition smoothed_table (self : FeatureEngineer) (df : DataFrame) : DataFrame :=
  match create_rolling_features self df with Ok sm => sm | Err _ => [] end.

Definition built_stats (fetch : string → DataFrame) : gmap string DataFrame :=
  match build_all_team_stats fetch engineer5 sample_schedule with
  | Ok all_team_stats => all_team_stats
  | Err _ => ∅
  end.

(** A home team with three weeks before week 6, and one with two. *)
Definition SEA_three_weeks : DataFrame :=
  before_week 4 SEA_stats ++ [stat_row 6 30 20 1 2 (1 # 5) (1 # 2) 0].

Definition stats_with_home (home : DataFrame) : gmap string DataFrame :=
  {[ "SEA" := smoothed_table engineer5 home;
     "NE" := smoothed_table engineer5 NE_stats ]}.

Definition SEA_smoothed : DataFrame := smoothed_table engineer5 SEA_stats.
Definition NE_smoothed : DataFrame := smoothed_table engineer5 NE_stats.

Definition table_or_empty (r : result FeatureFrame) : FeatureFrame :=
  match r with Ok f => f | Err _ => [] end.

Definition sample_store : gmap nat DataFrame :=
  {[ 0%nat := NE_stats; 1%nat := SEA_stats ]}.

Definition last_row (df : DataFrame) : Row :=
  default (mkRow 0 ∅) (last df).

#[global] Instance PyError_eq_dec : EqDecision PyError.
Proof. solve_decision. Defined.

#[global] Instance result_eq_dec {A} `{EqDecision A} : EqDecision (result A).
Proof. solve_decision. Defined.

#[global] Instance Row_eq_dec : EqDecision Row.
Proof. solve_decision. Defined.

(** The game is a regular-season game whose pass of the loop appends a
    row. *)
Definition adds_row (self : FeatureEngineer)
    (all_team_stats : gmap string DataFrame) (game : ScheduledGame) : bool :=
  bool_decide (game_type game = "REG") &&
  match game_features self all_team_stats game with
  | Ok (Some _) => true
  | _ => false
  end.

(** ** The rest of [main] *)

(** Lines 23-34 of [main]: the two finalists' tables are fetched, then
    smoothed, then matched. *)
Definition sb_features (fetch : string → DataFrame) (engineer : FeatureEngineer)
    (team1 team2 : string) : result FeatureFrame :=
  let sea_stats := fetch team1 in
  let ne_stats := fetch team2 in
  sea_stats ← create_rolling_features engineer sea_stats;
  ne_stats ← create_rolling_features engineer ne_stats;
  create_matchup_features engineer sea_stats ne_stats.

(** [a > b] on floats: false as soon as one side is [NaN]. *)
Definition cell_gt (a b : cell) : bool :=
  match a, b with
  | Num x, Num y => bool_decide (y < x)%Qc
  | _, _ => false
  end.

(** Python's [max(a, b)]: the second argument only when it is greater. *)
Definition py_max (a b : cell) : cell :=
  if cell_gt b a then b else a.

Definition one_half : cell := Num (Q2Qc (5 # 10)).

(** Line 101 of [main]: the team announced as the winner, and the
    probability printed with it. *)
Definition announced_winner (team1 team2 : string) (blended_proba : cell) : string :=
  if cell_gt blended_proba one_half then team1 else team2.

Definition announced_confidence (blended_proba : cell) : cell :=
  py_max blended_proba (cell_sub (Num (Qc_of_Z 1)) blended_proba).

(** Lines 99-100 of [main]: the probabilities printed for the two teams. *)
Definition printed_proba (team1 team2 team : string) (blended_proba : cell) : cell :=
  if decide (team = team1) then blended_proba
  else cell_sub (Num (Qc_of_Z 1)) blended_proba.

(** ** More vocabulary *)

(** The names of the twelve features and of the two labels. *)
Definition feature_names : gset string :=
  list_to_set
    ["pts_diff"; "epa_diff"; "success_diff"; "turnover_diff";
     "t1_epa"; "t2_epa"; "t1_success"; "t2_success";
     "def_epa_diff"; "pts_allowed_diff"; "sacks_diff"; "net_pts_diff"].

Definition label_names : gset string := {[ "home_win"; "point_diff" ]}.

(** The names of the seven columns the smoother writes. *)
Definition smoothed_names (self : FeatureEngineer) : gset string :=
  list_to_set (rolling_name self <$> rolling_cols).

(** The condition of the loop, read on the dictionary: a regular-season
    game whose two teams have at least three rows before its week. *)
Definition eligible (all_team_stats : gmap string DataFrame)
    (game : ScheduledGame) : bool :=
  bool_decide (game_type game = "REG") &&
  (3 <=? prior_weeks (game_week game)
           (default [] (all_team_stats !! home_team game)))%nat &&
  (3 <=? prior_weeks (game_week game)
           (default [] (all_team_stats !! away_team game)))%nat.

(** ** More data for the examples *)

Definition engineer3 : FeatureEngineer := FeatureEngineer_init (Some 3).

(** A schedule in which one team never plays at home. *)
Definition one_host_schedule : list ScheduledGame := [game_week4].

Definition built_for (fetch : string → DataFrame)
    (schedules : list ScheduledGame) : gmap string DataFrame :=
  match build_all_team_stats fetch engineer5 schedules with
  | Ok all_team_stats => all_team_stats
  | Err _ => ∅
  end.

(** A game with a home team the dictionary of the examples does not hold. *)
Definition game_unknown_home : ScheduledGame := mkGame "REG" 6 "DAL" "NE" 17 20.

Definition frames_or_empty (r : result (list FeatureFrame)) : list FeatureFrame :=
  match r with Ok rows => rows | Err _ => [] end.

(** ** The statement on rolling means *)

(** The seven raw fields of a TeamWeekStat, as the specification lists
    them. *)
Definition raw_fields : list string :=
  ["points"; "epa"; "success"; "def_epa"; "pts_allowed"; "turnovers"; "sacks"].

(** A series of TeamWeekStat: every row holds a number in each raw field. *)
Definition weekly_stats (df : DataFrame) : bool :=
  forallb (λ r, forallb (λ f, match vals r !! f with
                              | Some (Num _) => true
                              | _ => false
                              end) raw_fields) df.

(** Following the words of the specification: [sorted] holds the rows of
    [df] in ascending order of week, the rows of one week in the order they
    have in [df]. *)
Definition sorted_by_week (df sorted : DataFrame) : Prop :=
  sorted ≡ₚ df ∧ ascending (map week sorted) ∧
  ∀ w, filter (λ r, week r = w) sorted = filter (λ r, week r = w) df.

(** ** The rolling mean in binary64

    The cells above are exact rationals.  pandas holds a column as IEEE 754
    binary64 numbers and computes [rolling(..).mean()] with a running sum:
    a value that enters the window is added, a value that leaves it is
    subtracted, each with Kahan compensation, and the sum is divided by the
    number of observations ([add_mean], [remove_mean], [calc_mean] and
    [roll_mean] of pandas' window aggregations, fixed windows closed on the
    right).  This module is that computation on Rocq's binary64 numbers. *)
Module Binary64.
Import PrimFloat FloatOps SpecFloat.

Record MeanState := mkMeanState {
  nobs : Z;
  neg_ct : Z;
  sum_x : float;
  compensation_add : float;
  compensation_remove : float;
  num_consecutive_same_value : Z;
  prev_value : float
}.

Definition setup (first : float) : MeanState :=
  mkMeanState 0 0 0%float 0%float 0%float 0 first.

(** [if val == val] leaves a NaN out. *)
Definition add_mean (st : MeanState) (val : float) : MeanState :=
  if eqb val val then
    let y := sub val (compensation_add st) in
    let t := add (sum_x st) y in
    mkMeanState (nobs st + 1)
                (if get_sign val then neg_ct st + 1 else neg_ct st)
                t
                (sub (sub t (sum_x st)) y)
                (compensation_remove st)
                (if eqb val (prev_value st)
                 then num_consecutive_same_value st + 1 else 1)
                val
  else st.

Definition remove_mean (st : MeanState) (val : float) : MeanState :=
  if eqb val val then
    let y := sub (opp val) (compensation_remove st) in
    let t := add (sum_x st) y in
    mkMeanState (nobs st - 1)
                (if get_sign val then neg_ct st - 1 else neg_ct st)
                t
                (compensation_add st)
                (sub (sub t (sum_x st)) y)
                (num_consecutive_same_value st)
                (prev_value st)
  else st.

Definition float_of_Z (n : Z) : float := of_uint63 (Uint63.of_Z n).

Definition calc_mean (minp : Z) (st : MeanState) : float :=
  if (minp <=? nobs st) && (0 <? nobs st) then
    let result := div (sum_x st) (float_of_Z (nobs st)) in
    if nobs st <=? num_consecutive_same_value st then prev_value st
    else if (neg_ct st =? 0) && ltb result 0%float then 0%float
    else if (neg_ct st =? nobs st) && ltb 0%float result then 0%float
    else result
  else nan.

(** The bounds of the window that ends at position [i]:
    [start = max(0, i + 1 - w)], [end = i + 1]. *)
Definition window_start (w i : nat) : nat := (S i - w)%nat.
Definition window_end (i : nat) : nat := S i.

Definition slice (s e : nat) (values : list float) : list float :=
  drop s (take e values).

(** One turn of the loop of [roll_mean]: a fresh sum at the first position
    and when the window shares nothing with the one before, deletes then
    adds otherwise. *)
Definition roll_step (w : nat) (minp : Z) (values : list float)
    (acc : MeanState * list float) (i : nat) : MeanState * list float :=
  let s := window_start w i in
  let e := window_end i in
  let st :=
    if (i =? 0)%nat || (window_end (i - 1) <=? s)%nat
    then foldl add_mean (setup (nth s values nan)) (slice s e values)
    else foldl add_mean
           (foldl remove_mean acc.1 (slice (window_start w (i - 1)) s values))
           (slice (window_end (i - 1)) e values) in
  (st, acc.2 ++ [calc_mean minp st]).

Definition roll_mean (w : nat) (minp : Z) (values : list float) : list float :=
  (foldl (roll_step w minp values) (setup nan, []) (seq 0 (length values))).2.

(** The values are prepared first: an infinity counts as NaN. *)
Definition prep_values (xs : list float) : list float :=
  map (λ v, if is_infinity v then nan else v) xs.

(** [xs.rolling(window=window, min_periods=min_periods).mean()] *)
Definition rolling_mean (window min_periods : Z) (xs : list float)
    : result (list float) :=
  if min_periods <? 0 then Err (ValueError "min_periods must be >= 0")
  else if window <? min_periods then Err (ValueError "min_periods must be <= window")
  else if window <? 0 then Err (ValueError "window must be an integer 0 or greater")
  else Ok (roll_mean (Z.to_nat window) min_periods (prep_values xs)).

(** The right-hand side of the assignment in the loop of
    [create_rolling_features], on one column of the table sorted by week:
    [team_stats[col].rolling(window=self.window_size, min_periods=1).mean()]. *)
Definition smooth (self : FeatureEngineer) (column : list float)
    : result (list float) :=
  rolling_mean (window_size self) 1 column.

(** The rational a finite binary64 number denotes. *)
Definition exact (x : float) : option Qc :=
  match Prim2SF x with
  | S754_zero _ => Some (Qc_of_Z 0)
  | S754_finite s m e =>
      Some (Q2Qc ((if s then -1 else 1) * (Z.pos m # 1) * Qpower (2 # 1) e))
  | _ => None
  end.

(** Five weeks of [epa] in week order: four times 0.90981536930743878 and,
    in the fourth week, the next binary64 number above it. *)
Definition epa_low : float := 0x1.d1d351f125b07p-1%float.
Definition epa_high : float := 0x1.d1d351f125b08p-1%float.
Definition epa_by_week : list float :=
  [epa_low; epa_low; epa_low; epa_high; epa_low].

(** The binary64 number just below [epa_low]. *)
Definition epa_below : float := 0x1.d1d351f125b06p-1%float.

End Binary64.

(** ** A league of three teams *)



(** ** The season in week order *)

(** [SEA_stats] and [SEA_three_weeks] with their rows in ascending order of
    week, written out. *)
Definition SEA_by_week : DataFrame :=
  [ stat_row 1 20 17 0 3 (1 # 10) (1 # 2) (-1 # 20);
    stat_row 2 24 21 2 1 (3 # 20) (12 # 25) (1 # 25);
    stat_row 3 17 20 1 2 (1 # 20) (9 # 20) (-1 # 50);
    stat_row 4 28 14 1 4 (1 # 5) (13 # 25) (-3 # 50);
    stat_row 5 31 10 0 5 (1 # 4) (11 # 20) (-1 # 10) ].

Definition SEA_three_by_week : DataFrame :=
  [ stat_row 1 20 17 0 3 (1 # 10) (1 # 2) (-1 # 20);
    stat_row 2 24 21 2 1 (3 # 20) (12 # 25) (1 # 25);
    stat_row 3 17 20 1 2 (1 # 20) (9 # 20) (-1 # 50);
    stat_row 6 30 20 1 2 (1 # 5) (1 # 2) 0 ].

(** An engineer whose window is 0. *)
Definition engineer0 : FeatureEngineer := FeatureEngineer_init (Some 0).

(** * Properties *)

(** ** The result monad *)

Lemma bind_Ok {A B} (f : A → result B) (m : result A) (b : B) :
  m ≫= f = Ok b ↔ ∃ a, m = Ok a ∧ f a = Ok b.
Proof.
  destruct m as [a|e]; simpl; split.
  - intros H. by exists a.
  - by intros (a' & [= ->] & H).
  - discriminate.
  - by intros (a' & [=] & _).
Qed.

Lemma fmap_Ok {A B} (f : A → B) (m : result A) (b : B) :
  f <$> m = Ok b ↔ ∃ a, m = Ok a ∧ b = f a.
Proof.
  destruct m as [a|e]; simpl; split.
  - intros [= <-]. by exists a.
  - by intros (a' & [= ->] & ->).
  - discriminate.
  - by intros (a' & [=] & _).
Qed.

Lemma bind_Ok_l {A B} (f : A → result B) (a : A) : Ok a ≫= f = f a.
Proof. done. Qed.

Lemma bind_Err_l {A B} (f : A → result B) (e : PyError) : Err e ≫= f = Err e.
Proof. done. Qed.

Lemma foldM_app {A B} (f : B → A → result B) (acc : B) (l k : list A) :
  foldM f acc (l ++ k) = foldM f acc l ≫= λ acc', foldM f acc' k.
Proof.
  revert acc. induction l as [|x l IH]; intros acc; simpl; [done|].
  destruct (f acc x) as [acc'|e]; simpl; [apply IH|done].
Qed.

Lemma foldM_ext {A B} (f g : B → A → result B) (acc : B) (l : list A) :
  (∀ b x, x ∈ l → f b x = g b x) → foldM f acc l = foldM g acc l.
Proof.
  revert acc. induction l as [|x l IH]; intros acc Hfg; simpl; [done|].
  rewrite Hfg by left. destruct (g acc x); simpl; [|done].
  apply IH. intros b y Hy. apply Hfg. by right.
Qed.

(** ** Column reads and writes *)

Lemma getitem_Ok (col : string) (df : DataFrame) (s : Series) :
  getitem col df = Ok s ↔ Forall2 (λ r c, vals r !! col = Some c) df s.
Proof.
  unfold getitem, row_get. revert s.
  induction df as [|r df IH]; intros s; simpl.
  - split; [intros [= <-]; constructor | by inversion 1].
  - split.
    + destruct (vals r !! col) as [c|] eqn:Hc; simpl; [|done].
      destruct (mapM _ df) as [s'|] eqn:Hs; simpl; [|done].
      intros [= <-]. constructor; [done|]. by apply IH.
    + inversion 1 as [|? c ? s' Hc Hs]; subst. rewrite Hc. simpl.
      apply IH in Hs. by rewrite Hs.
Qed.

Lemma getitem_length (col : string) (df : DataFrame) (s : Series) :
  getitem col df = Ok s → length s = length df.
Proof. intros H%getitem_Ok. symmetry. by eapply Forall2_length. Qed.

Lemma getitem_take (col : string) (df : DataFrame) (s : Series) (k : nat) :
  getitem col df = Ok s → getitem col (take k df) = Ok (take k s).
Proof. rewrite !getitem_Ok. apply Forall2_take. Qed.

Lemma setitem_length (name : string) (s : Series) (df : DataFrame) :
  length s = length df → length (setitem name s df) = length df.
Proof. intros H. unfold setitem. rewrite length_zip_with. lia. Qed.

Lemma setitem_take (name : string) (s : Series) (df : DataFrame) (k : nat) :
  setitem name (take k s) (take k df) = take k (setitem name s df).
Proof. unfold setitem. by rewrite zip_with_take. Qed.

Lemma setitem_lookup (name : string) (s : Series) (df : DataFrame) (i : nat) (r' : Row) :
  setitem name s df !! i = Some r' ↔
  ∃ r c, df !! i = Some r ∧ s !! i = Some c ∧
         r' = mkRow (week r) (<[name := c]> (vals r)).
Proof.
  unfold setitem. rewrite lookup_zip_with_Some.
  split; intros (r & c & H); exists r, c; tauto.
Qed.

Lemma setitem_weeks (name : string) (s : Series) (df : DataFrame) :
  length s = length df → map week (setitem name s df) = map week df.
Proof.
  unfold setitem. revert s. induction df as [|r df IH]; intros [|c s] Hl;
    simpl in *; try done. f_equal. apply IH. lia.
Qed.

(** ** Rolling means *)

Lemma rolling_mean_Ok (window : Z) (s : Series) :
  1 ≤ window →
  rolling_mean window 1 s =
  Ok (map (λ i, window_mean 1 (window_at (Z.to_nat window) i s))
          (seq 0 (length s))).
Proof.
  intros Hw. unfold rolling_mean.
  destruct (Z.ltb_spec 1 0); [lia|].
  destruct (Z.ltb_spec window 1); [lia|].
  destruct (Z.ltb_spec window 0); [lia|done].
Qed.

Lemma rolling_mean_Err (window : Z) (s : Series) :
  window ≤ 0 →
  rolling_mean window 1 s = Err (ValueError "min_periods must be <= window").
Proof.
  intros Hw. unfold rolling_mean.
  destruct (Z.ltb_spec 1 0); [lia|].
  destruct (Z.ltb_spec window 1); [done|lia].
Qed.

Lemma rolling_mean_inv (window min_periods : Z) (s r : Series) :
  rolling_mean window min_periods s = Ok r →
  r = map (λ i, window_mean min_periods (window_at (Z.to_nat window) i s))
          (seq 0 (length s)).
Proof.
  unfold rolling_mean.
  repeat match goal with |- context [if ?b then _ else _] => destruct b end;
    congruence.
Qed.

Lemma rolling_mean_length (window min_periods : Z) (s r : Series) :
  rolling_mean window min_periods s = Ok r → length r = length s.
Proof. intros ->%rolling_mean_inv. by rewrite length_map, length_seq. Qed.

Lemma rolling_mean_lookup (window min_periods : Z) (s r : Series) (i : nat) :
  rolling_mean window min_periods s = Ok r → (i < length s)%nat →
  r !! i = Some (window_mean min_periods (window_at (Z.to_nat window) i s)).
Proof.
  intros ->%rolling_mean_inv Hi.
  rewrite list_lookup_fmap, lookup_seq_lt by done. done.
Qed.

Lemma window_at_take (w i k : nat) (s : Series) :
  (i < k)%nat → window_at w i (take k s) = window_at w i s.
Proof.
  intros Hi. unfold window_at. rewrite take_take.
  by replace (S i `min` k)%nat with (S i) by lia.
Qed.

(** A rolling mean looks back only: the smoothed prefix is the prefix of the
    smoothed series. *)
Lemma rolling_mean_take (window min_periods : Z) (s r : Series) (k : nat) :
  rolling_mean window min_periods s = Ok r →
  rolling_mean window min_periods (take k s) = Ok (take k r).
Proof.
  intros H. pose proof (rolling_mean_inv _ _ _ _ H) as ->.
  unfold rolling_mean in *.
  repeat match goal with |- context [if ?b then _ else _] => destruct b end;
    try congruence.
  f_equal. rewrite <- fmap_take, take_seq, length_take.
  apply list_fmap_ext. intros j i [-> Hi]%lookup_seq. simpl.
  rewrite window_at_take; [done|lia].
Qed.

(** ** Sorting by week *)

Lemma insert_by_week_perm (r : Row) (df : DataFrame) :
  insert_by_week r df ≡ₚ r :: df.
Proof.
  induction df as [|r' df IH]; simpl; [done|].
  destruct (week r <=? week r'); [done|].
  rewrite IH. apply perm_swap.
Qed.

Lemma sort_values_week_perm (df : DataFrame) : sort_values_week df ≡ₚ df.
Proof.
  induction df as [|r df IH]; simpl; [done|].
  rewrite insert_by_week_perm. by constructor.
Qed.

Lemma sort_values_week_length (df : DataFrame) :
  length (sort_values_week df) = length df.
Proof. by rewrite sort_values_week_perm. Qed.

Lemma insert_by_week_ascending (r : Row) (df : DataFrame) :
  ascending (map week df) → ascending (map week (insert_by_week r df)).
Proof.
  induction df as [|r' df IH]; simpl; [by split|].
  intros [Hle Hs]. destruct (Z.leb_spec (week r) (week r')); simpl.
  - repeat split; try done. constructor; [done|].
    eapply Forall_impl; [exact Hle|]. simpl. lia.
  - split; [|by apply IH].
    assert (Forall (Z.le (week r')) (map week (r :: df))) as Hall
      by (constructor; [lia|done]).
    by rewrite <- (insert_by_week_perm r df) in Hall.
Qed.

Lemma sort_values_week_ascending (df : DataFrame) :
  ascending (map week (sort_values_week df)).
Proof.
  induction df as [|r df IH]; simpl; [done|].
  by apply insert_by_week_ascending.
Qed.

Lemma before_week_none (w : Z) (df : DataFrame) :
  Forall (Z.le w) (map week df) → before_week w df = [].
Proof.
  unfold before_week. induction df as [|r df IH]; simpl; [done|].
  intros [Hr Hdf]%Forall_cons. rewrite filter_cons_False by lia. by apply IH.
Qed.

(** In a table sorted by week the rows before week [w] are a prefix, whose
    length is read off the weeks alone. *)
Lemma before_week_prefix (w : Z) (df : DataFrame) :
  ascending (map week df) →
  before_week w df = take (length (filter (λ z, z < w) (map week df))) df.
Proof.
  induction df as [|r df IH]; simpl; [done|].
  intros [Hle Hs]. unfold before_week in *.
  destruct (decide (week r < w)).
  - rewrite !filter_cons_True by done. simpl. f_equal. by apply IH.
  - rewrite !filter_cons_False by done.
    assert (Forall (Z.le w) (map week df)) as Hall
      by (eapply Forall_impl; [exact Hle|]; simpl; lia).
    pose proof (before_week_none w df Hall) as Hnone.
    unfold before_week in Hnone. rewrite Hnone.
    replace (filter (λ z, z < w) (map week df)) with (@nil Z); [done|].
    clear -Hall. induction (map week df) as [|z ws IH]; [done|].
    apply Forall_cons in Hall as [Hz Hws].
    rewrite filter_cons_False by lia. by apply IH.
Qed.

Lemma before_week_insert (w : Z) (r : Row) (df : DataFrame) :
  ascending (map week df) →
  before_week w (insert_by_week r df) =
  if decide (week r < w) then insert_by_week r (before_week w df)
  else before_week w df.
Proof.
  unfold before_week.
  induction df as [|r' df IH]; simpl.
  - intros _. rewrite filter_cons, filter_nil. by destruct (decide _).
  - intros [Hle Hs]. destruct (Z.leb_spec (week r) (week r')).
    + destruct (decide (week r < w)).
      * rewrite filter_cons_True by done.
        destruct (decide (week r' < w)).
        -- rewrite filter_cons_True by done. simpl.
           by destruct (Z.leb_spec (week r) (week r')); [|lia].
        -- rewrite filter_cons_False by done.
           assert (Forall (Z.le w) (map week df)) as Hall
             by (eapply Forall_impl; [exact Hle|]; simpl; lia).
           pose proof (before_week_none w df Hall) as Hnone.
           unfold before_week in Hnone. by rewrite Hnone.
      * by rewrite filter_cons_False by done.
    + specialize (IH Hs). destruct (decide (week r < w)).
      * rewrite !(filter_cons_True _ r') by lia. rewrite IH. simpl.
        by destruct (Z.leb_spec (week r) (week r')); [lia|].
      * rewrite (filter_cons _ r'), IH. done.
Qed.

(** Restricting to the weeks before [w] commutes with sorting. *)
Lemma before_week_sort (w : Z) (df : DataFrame) :
  before_week w (sort_values_week df) = sort_values_week (before_week w df).
Proof.
  induction df as [|r df IH]; simpl; [done|].
  rewrite before_week_insert by apply sort_values_week_ascending.
  unfold before_week at 3. rewrite filter_cons.
  destruct (decide (week r < w)); simpl; by rewrite IH.
Qed.

(** ** Column names *)

Ltac each_col H :=
  unfold rolling_cols in H;
  repeat (apply elem_of_cons in H as [->|H]);
  [..|by apply elem_of_nil in H].

Lemma rolling_name_inj (self : FeatureEngineer) (c c' : string) :
  c ∈ rolling_cols → c' ∈ rolling_cols →
  rolling_name self c = rolling_name self c' → c = c'.
Proof.
  intros Hc Hc'. unfold rolling_name.
  each_col Hc; each_col Hc'; simpl; intros Heq; try done; discriminate.
Qed.

Lemma rolling_name_raw (self : FeatureEngineer) (c c' : string) :
  c ∈ rolling_cols → c' ∈ rolling_cols → rolling_name self c ≠ c'.
Proof.
  intros Hc Hc'. unfold rolling_name.
  each_col Hc; each_col Hc'; simpl; discriminate.
Qed.

Lemma rolling_cols_NoDup : NoDup rolling_cols.
Proof. compute_done. Qed.

(** ** One pass of the smoothing loop *)

Lemma add_rolling_Ok (self : FeatureEngineer) (df df' : DataFrame) (c : string) :
  add_rolling self df c = Ok df' ↔
  ∃ s r, getitem c df = Ok s ∧ rolling_mean (window_size self) 1 s = Ok r ∧
         df' = setitem (rolling_name self c) r df.
Proof.
  unfold add_rolling. rewrite bind_Ok. split.
  - intros (s & Hs & (r & Hr & [= <-])%bind_Ok). by exists s, r.
  - intros (s & r & Hs & Hr & ->). exists s. split; [done|].
    apply bind_Ok. by exists r.
Qed.

Lemma add_rolling_length (self : FeatureEngineer) (df df' : DataFrame) (c : string) :
  add_rolling self df c = Ok df' → length df' = length df.
Proof.
  intros (s & r & Hs & Hr & ->)%add_rolling_Ok. apply setitem_length.
  apply rolling_mean_length in Hr. apply getitem_length in Hs. lia.
Qed.

Lemma add_rolling_weeks (self : FeatureEngineer) (df df' : DataFrame) (c : string) :
  add_rolling self df c = Ok df' → map week df' = map week df.
Proof.
  intros (s & r & Hs & Hr & ->)%add_rolling_Ok. apply setitem_weeks.
  apply rolling_mean_length in Hr. apply getitem_length in Hs. lia.
Qed.

Lemma add_rolling_take (self : FeatureEngineer) (df df' : DataFrame) (c : string) (k : nat) :
  add_rolling self df c = Ok df' →
  add_rolling self (take k df) c = Ok (take k df').
Proof.
  rewrite !add_rolling_Ok. intros (s & r & Hs & Hr & ->).
  exists (take k s), (take k r). split; [by apply getitem_take|].
  split; [by apply rolling_mean_take|]. by rewrite setitem_take.
Qed.

Lemma add_rolling_row (self : FeatureEngineer) (df df' : DataFrame) (c : string)
    (i : nat) (r' : Row) :
  add_rolling self df c = Ok df' → df' !! i = Some r' →
  ∃ r s, df !! i = Some r ∧ getitem c df = Ok s ∧
    r' = mkRow (week r)
           (<[rolling_name self c :=
                window_mean 1 (window_at (Z.to_nat (window_size self)) i s)]>
              (vals r)).
Proof.
  intros (s & x & Hs & Hx & ->)%add_rolling_Ok.
  intros (r & v & Hr & Hv & ->)%setitem_lookup.
  exists r, s. repeat split; try done.
  assert (i < length s)%nat as Hi.
  { apply getitem_length in Hs. apply lookup_lt_Some in Hr. lia. }
  rewrite (rolling_mean_lookup _ _ _ _ _ Hx Hi) in Hv. by injection Hv as <-.
Qed.

(** A write to another column leaves a column read as it was. *)
Lemma getitem_setitem_ne (name c : string) (s : Series) (df : DataFrame) :
  name ≠ c → length s = length df →
  getitem c (setitem name s df) = getitem c df.
Proof.
  intros Hne. unfold getitem, setitem, row_get. revert s.
  induction df as [|r df IH]; intros [|v s] Hl; simpl in *; try done.
  rewrite lookup_insert_ne by done. rewrite IH by lia. done.
Qed.

Lemma add_rolling_getitem (self : FeatureEngineer) (df df' : DataFrame) (c c' : string) :
  c ∈ rolling_cols → c' ∈ rolling_cols →
  add_rolling self df c = Ok df' → getitem c' df' = getitem c' df.
Proof.
  intros Hc Hc' (s & r & Hs & Hr & ->)%add_rolling_Ok.
  apply getitem_setitem_ne; [by apply rolling_name_raw|].
  apply rolling_mean_length in Hr. apply getitem_length in Hs. lia.
Qed.

(** ** The smoothing loop *)

Section smoothing.
Context (self : FeatureEngineer).

Lemma smooth_length (cols : list string) (df df' : DataFrame) :
  foldM (add_rolling self) df cols = Ok df' → length df' = length df.
Proof.
  revert df. induction cols as [|c cols IH]; intros df; simpl.
  - by intros [= ->].
  - intros (df1 & H1 & H2)%bind_Ok. rewrite (IH _ H2).
    by eapply add_rolling_length.
Qed.

Lemma smooth_weeks (cols : list string) (df df' : DataFrame) :
  foldM (add_rolling self) df cols = Ok df' → map week df' = map week df.
Proof.
  revert df. induction cols as [|c cols IH]; intros df; simpl.
  - by intros [= ->].
  - intros (df1 & H1 & H2)%bind_Ok. rewrite (IH _ H2).
    by eapply add_rolling_weeks.
Qed.

(** Smoothing a prefix gives the prefix of the smoothed table. *)
Lemma smooth_take (cols : list string) (df df' : DataFrame) (k : nat) :
  foldM (add_rolling self) df cols = Ok df' →
  foldM (add_rolling self) (take k df) cols = Ok (take k df').
Proof.
  revert df. induction cols as [|c cols IH]; intros df; simpl.
  - by intros [= ->].
  - intros (df1 & H1 & H2)%bind_Ok. apply bind_Ok.
    exists (take k df1). split; [by apply add_rolling_take|by apply IH].
Qed.

(** Later passes keep every column they do not write. *)
Lemma smooth_preserves (cols : list string) (df df' : DataFrame)
    (i : nat) (r' : Row) :
  foldM (add_rolling self) df cols = Ok df' → df' !! i = Some r' →
  ∃ r, df !! i = Some r ∧
       ∀ k, k ∉ rolling_name self <$> cols → vals r' !! k = vals r !! k.
Proof.
  revert df. induction cols as [|c cols IH]; intros df; simpl.
  - intros [= ->] Hi. by exists r'.
  - intros (df1 & H1 & H2)%bind_Ok Hi.
    destruct (IH _ H2 Hi) as (r1 & Hr1 & Hkeep).
    destruct (add_rolling_row _ _ _ _ _ _ H1 Hr1) as (r & s & Hr & _ & ->).
    exists r. split; [done|]. intros k Hk.
    apply not_elem_of_cons in Hk as [Hne Hk].
    rewrite (Hkeep k Hk). simpl. by rewrite lookup_insert_ne.
Qed.

(** What the loop leaves in the smoothed column of a raw column. *)
Lemma smooth_value (cols : list string) (df df' : DataFrame) (c : string)
    (i : nat) (r' : Row) :
  cols ⊆ rolling_cols → NoDup cols → c ∈ cols →
  foldM (add_rolling self) df cols = Ok df' → df' !! i = Some r' →
  ∃ s, getitem c df = Ok s ∧
       vals r' !! rolling_name self c =
       Some (window_mean 1 (window_at (Z.to_nat (window_size self)) i s)).
Proof.
  revert df. induction cols as [|c0 cols IH]; intros df Hsub Hnd Hc; simpl.
  { by apply elem_of_nil in Hc. }
  intros (df1 & H1 & H2)%bind_Ok Hi.
  apply NoDup_cons in Hnd as [Hc0 Hnd].
  assert (c0 ∈ rolling_cols) as Hc0r by (apply Hsub; left).
  assert (cols ⊆ rolling_cols) as Hsub' by (intros x Hx; apply Hsub; by right).
  apply elem_of_cons in Hc as [->|Hc].
  - destruct (smooth_preserves _ _ _ _ _ H2 Hi) as (r1 & Hr1 & Hkeep).
    destruct (add_rolling_row _ _ _ _ _ _ H1 Hr1) as (r & s & Hr & Hs & ->).
    exists s. split; [done|]. rewrite Hkeep.
    + simpl. by rewrite lookup_insert_eq.
    + intros (c' & Heq & Hc')%list_elem_of_fmap.
      apply rolling_name_inj in Heq; [by subst|done|by apply Hsub'].
  - destruct (IH df1 Hsub' Hnd Hc H2 Hi) as (s & Hs & Hv).
    exists s. split; [|done]. rewrite <- Hs. symmetry.
    eapply add_rolling_getitem; [exact Hc0r|by apply Hsub'|exact H1].
Qed.
End smoothing.

(** ** Tables that have the raw columns *)

Lemma has_raw_columns_spec (df : DataFrame) :
  has_raw_columns df = true ↔ raw_present df.
Proof.
  unfold has_raw_columns, raw_present.
  rewrite forallb_forall, Forall_forall. split.
  - intros H r Hr c Hc. apply list_elem_of_In in Hr.
    specialize (H r Hr). rewrite forallb_forall in H.
    apply list_elem_of_In in Hc. by apply H, bool_decide_eq_true in Hc.
  - intros H r Hr. apply forallb_forall. intros c Hc.
    apply bool_decide_eq_true, H; by apply list_elem_of_In.
Qed.

Lemma numeric_stats_spec (df : DataFrame) :
  numeric_stats df = true ↔
  Forall (λ r, ∀ c, c ∈ rolling_cols → ∃ q, vals r !! c = Some (Num q)) df.
Proof.
  unfold numeric_stats. rewrite forallb_forall, Forall_forall. split.
  - intros H r Hr c Hc. apply list_elem_of_In in Hr.
    specialize (H r Hr). rewrite forallb_forall in H.
    apply list_elem_of_In in Hc. apply H in Hc.
    destruct (vals r !! c) as [[q|]|]; try done. by exists q.
  - intros H r Hr. apply forallb_forall. intros c Hc.
    destruct (H r) with (c := c) as [q ->]; try done; by apply list_elem_of_In.
Qed.

Lemma numeric_stats_raw_present (df : DataFrame) :
  numeric_stats df = true → raw_present df.
Proof.
  rewrite numeric_stats_spec. unfold raw_present. intros Hall.
  eapply Forall_impl; [exact Hall|]. simpl.
  intros r H c Hc. destruct (H c Hc) as [q ->]. by eexists.
Qed.

Lemma getitem_present (c : string) (df : DataFrame) :
  c ∈ rolling_cols → raw_present df → ∃ s, getitem c df = Ok s.
Proof.
  intros Hc. induction 1 as [|r df Hr Hdf [s IH]].
  - by exists [].
  - destruct (Hr c Hc) as [v Hv]. exists (v :: s).
    apply getitem_Ok. constructor; [done|by apply getitem_Ok].
Qed.

Lemma getitem_numeric (c : string) (df : DataFrame) :
  c ∈ rolling_cols → numeric_stats df = true →
  getitem c df = Ok (Num <$> raw_values c df).
Proof.
  intros Hc. rewrite numeric_stats_spec, getitem_Ok.
  induction 1 as [|r df Hr Hdf IH]; simpl; constructor; [|done].
  unfold raw_value. by destruct (Hr c Hc) as [q ->].
Qed.

Lemma setitem_raw_present (name : string) (s : Series) (df : DataFrame) :
  raw_present df → raw_present (setitem name s df).
Proof.
  unfold raw_present, setitem. intros H. revert s.
  induction H as [|r df Hr Hdf IH]; intros [|v s]; simpl; constructor.
  - intros c Hc. apply lookup_insert_is_Some'. right. by apply Hr.
  - apply IH.
Qed.

Lemma smooth_succeeds (self : FeatureEngineer) (cols : list string) (df : DataFrame) :
  1 ≤ window_size self → cols ⊆ rolling_cols → raw_present df →
  ∃ df', foldM (add_rolling self) df cols = Ok df'.
Proof.
  intros Hw. revert df. induction cols as [|c cols IH]; intros df Hsub Hdf; simpl.
  - by exists df.
  - assert (c ∈ rolling_cols) as Hc by (apply Hsub; left).
    destruct (getitem_present c df Hc Hdf) as [s Hs].
    destruct (IH (setitem (rolling_name self c)
                    (map (λ i, window_mean 1
                       (window_at (Z.to_nat (window_size self)) i s))
                       (seq 0 (length s))) df)) as [df' Hdf'].
    + intros x Hx. apply Hsub. by right.
    + by apply setitem_raw_present.
    + exists df'. apply bind_Ok. eexists. split; [|exact Hdf'].
      apply add_rolling_Ok. eexists _, _.
      split; [exact Hs|]. split; [by apply rolling_mean_Ok|done].
Qed.

(** ** [create_rolling_features] *)

Lemma sort_values_week_raw_present (df : DataFrame) :
  raw_present df → raw_present (sort_values_week df).
Proof. unfold raw_present. by rewrite sort_values_week_perm. Qed.

Lemma create_rolling_features_succeeds (self : FeatureEngineer) (df : DataFrame) :
  1 ≤ window_size self → raw_present df →
  ∃ sm, create_rolling_features self df = Ok sm.
Proof.
  intros Hw Hdf. unfold create_rolling_features.
  apply smooth_succeeds; [exact Hw|by intros x Hx|].
  by apply sort_values_week_raw_present.
Qed.

Lemma create_rolling_features_length (self : FeatureEngineer) (df sm : DataFrame) :
  create_rolling_features self df = Ok sm → length sm = length df.
Proof.
  unfold create_rolling_features. intros H.
  apply smooth_length in H. by rewrite H, sort_values_week_length.
Qed.

Lemma create_rolling_features_weeks (self : FeatureEngineer) (df sm : DataFrame) :
  create_rolling_features self df = Ok sm →
  map week sm = map week (sort_values_week df).
Proof. unfold create_rolling_features. apply smooth_weeks. Qed.

Lemma create_rolling_features_value (self : FeatureEngineer) (df sm : DataFrame)
    (c : string) (i : nat) (r' : Row) :
  create_rolling_features self df = Ok sm → c ∈ rolling_cols → sm !! i = Some r' →
  ∃ s, getitem c (sort_values_week df) = Ok s ∧
       vals r' !! rolling_name self c =
       Some (window_mean 1 (window_at (Z.to_nat (window_size self)) i s)).
Proof.
  unfold create_rolling_features. intros H Hc Hi.
  eapply smooth_value;
    [by intros x Hx|apply rolling_cols_NoDup|exact Hc|exact H|exact Hi].
Qed.

(** Smoothing the whole season and then keeping the weeks before [w] is
    smoothing the weeks before [w] alone. *)
Lemma create_rolling_features_before_week (self : FeatureEngineer)
    (df sm : DataFrame) (w : Z) :
  create_rolling_features self df = Ok sm →
  create_rolling_features self (before_week w df) = Ok (before_week w sm).
Proof.
  intros H. unfold create_rolling_features in *.
  rewrite <- before_week_sort.
  pose proof (smooth_weeks _ _ _ _ H) as Hweeks.
  rewrite (before_week_prefix w sm)
    by (rewrite Hweeks; apply sort_values_week_ascending).
  rewrite (before_week_prefix w (sort_values_week df))
    by apply sort_values_week_ascending.
  rewrite Hweeks. by apply smooth_take.
Qed.

(** ** Windows of numbers *)

Lemma observations_Num (xs : list Qc) : observations (Num <$> xs) = xs.
Proof.
  unfold observations. induction xs as [|x xs IH]; [done|].
  simpl. f_equal. exact IH.
Qed.

Lemma drop_take_positions (a b : nat) (xs : list Qc) :
  (b ≤ length xs)%nat →
  drop a (take b xs) = map (λ j, nth j xs (Qc_of_Z 0)) (seq a (b - a)).
Proof.
  intros Hb. apply list_eq. intros j.
  rewrite lookup_drop, list_lookup_fmap.
  destruct (decide (j < b - a)%nat) as [Hj|Hj].
  - rewrite lookup_take_lt, lookup_seq_lt by lia. simpl.
    destruct (lookup_lt_is_Some_2 xs (a + j)) as [x Hx]; [lia|].
    by rewrite Hx, (nth_lookup_Some _ _ _ _ Hx).
  - rewrite lookup_seq_ge by lia.
    destruct (decide (a + j < b)%nat); [lia|].
    by rewrite lookup_take_ge by lia.
Qed.

Lemma window_at_numeric (window : Z) (i : nat) (xs : list Qc) :
  1 ≤ window → (i < length xs)%nat →
  window_at (Z.to_nat window) i (Num <$> xs) =
  Num <$> positions (trailing_start window i) i xs.
Proof.
  intros Hw Hi. unfold window_at, positions, trailing_start.
  rewrite <- fmap_take, <- fmap_drop. f_equal.
  rewrite drop_take_positions by lia.
  by replace (Z.to_nat (0 `max` (Z.of_nat i - window + 1)))
    with (S i - Z.to_nat window)%nat by lia.
Qed.

Lemma positions_length (lo hi : nat) (xs : list Qc) :
  length (positions lo hi xs) = (S hi - lo)%nat.
Proof. unfold positions. by rewrite length_map, length_seq. Qed.

Lemma window_mean_numeric (ys : list Qc) :
  ys ≠ [] → window_mean 1 (Num <$> ys) = Num (arithmetic_mean ys).
Proof.
  intros Hys. unfold window_mean. rewrite observations_Num.
  destruct ys as [|y ys]; [done|]. simpl length.
  destruct (Z.leb_spec 1 (Z.of_nat (S (length ys)))); [|lia].
  destruct (Z.ltb_spec 0 (Z.of_nat (S (length ys)))); [|lia]. done.
Qed.

Lemma positions_all (xs : list Qc) :
  xs ≠ [] → positions 0 (length xs - 1) xs = xs.
Proof.
  intros Hxs. unfold positions.
  assert (0 < length xs)%nat by (destruct xs; [done|simpl; lia]).
  rewrite <- drop_take_positions by lia.
  rewrite drop_0. apply take_ge. lia.
Qed.

Lemma sum_Qc_perm (xs ys : list Qc) : xs ≡ₚ ys → sum_Qc xs = sum_Qc ys.
Proof.
  unfold sum_Qc. induction 1 as [|x xs ys _ IH|x y xs|xs ys zs _ IH1 _ IH2];
    simpl; [done|by rewrite IH|ring|congruence].
Qed.

Lemma arithmetic_mean_perm (xs ys : list Qc) :
  xs ≡ₚ ys → arithmetic_mean xs = arithmetic_mean ys.
Proof.
  intros H. unfold arithmetic_mean.
  by rewrite (sum_Qc_perm _ _ H), (Permutation_length H).
Qed.

Lemma numeric_stats_sort (df : DataFrame) :
  numeric_stats df = true → numeric_stats (sort_values_week df) = true.
Proof. rewrite !numeric_stats_spec. by rewrite sort_values_week_perm. Qed.

Lemma raw_values_sort (f : string) (df : DataFrame) :
  raw_values f (sort_values_week df) ≡ₚ raw_values f df.
Proof. unfold raw_values. apply fmap_Permutation, sort_values_week_perm. Qed.

Lemma smoothed_numeric (self : FeatureEngineer) (df sm : DataFrame)
    (f : string) (i : nat) (row : Row) :
  1 ≤ window_size self → numeric_stats df = true →
  create_rolling_features self df = Ok sm → f ∈ rolling_cols →
  sm !! i = Some row →
  vals row !! rolling_name self f =
  Some (Num (trailing_mean (window_size self)
               (raw_values f (sort_values_week df)) i)).
Proof.
  intros Hw Hnum Hsm Hf Hrow.
  destruct (create_rolling_features_value _ _ _ _ _ _ Hsm Hf Hrow)
    as (s & Hs & ->).
  rewrite (getitem_numeric f _ Hf (numeric_stats_sort _ Hnum)) in Hs.
  injection Hs as <-.
  assert (i < length (raw_values f (sort_values_week df)))%nat as Hi.
  { unfold raw_values. rewrite length_map, sort_values_week_length.
    rewrite <- (create_rolling_features_length _ _ _ Hsm).
    by eapply lookup_lt_Some. }
  rewrite window_at_numeric by done.
  rewrite window_mean_numeric; [done|].
  intros Hnil. apply (f_equal length) in Hnil.
  rewrite positions_length in Hnil. unfold trailing_start in Hnil.
  simpl in Hnil. lia.
Qed.

(** *** The table sorted by week, in the words of the specification *)

Lemma insert_by_week_filter (w : Z) (r : Row) (df : DataFrame) :
  filter (λ r', week r' = w) (insert_by_week r df) =
  filter (λ r', week r' = w) (r :: df).
Proof.
  induction df as [|r' df IH]; [done|]. simpl.
  destruct (Z.leb_spec (week r) (week r')) as [Hle|Hlt]; [done|].
  rewrite filter_cons, IH, !filter_cons.
  repeat case_decide; try done; lia.
Qed.

Lemma sort_values_week_stable (w : Z) (df : DataFrame) :
  filter (λ r, week r = w) (sort_values_week df) =
  filter (λ r, week r = w) df.
Proof.
  induction df as [|r df IH]; [done|].
  change (sort_values_week (r :: df))
    with (insert_by_week r (sort_values_week df)).
  by rewrite insert_by_week_filter, !filter_cons, IH.
Qed.

Lemma sort_values_week_sorted_by_week (df : DataFrame) :
  sorted_by_week df (sort_values_week df).
Proof.
  split; [apply sort_values_week_perm|].
  split; [apply sort_values_week_ascending|].
  intros w. apply sort_values_week_stable.
Qed.

(** Two tables in ascending order of week with the same rows, those of each
    week in the same order, are the same table. *)
Lemma stable_ascending_eq (l1 l2 : DataFrame) :
  l1 ≡ₚ l2 → ascending (map week l1) → ascending (map week l2) →
  (∀ w, filter (λ r, week r = w) l1 = filter (λ r, week r = w) l2) →
  l1 = l2.
Proof.
  revert l2. induction l1 as [|a l1 IH]; intros l2 Hperm Hs1 Hs2 Hst.
  { by apply Permutation_nil_l in Hperm. }
  destruct l2 as [|b l2]; [by apply Permutation_nil_r in Hperm|].
  simpl in Hs1, Hs2. destruct Hs1 as [Hle1 Hs1], Hs2 as [Hle2 Hs2].
  assert (week a = week b) as Hweek.
  { assert (a ∈ b :: l2) as Ha by (rewrite <- Hperm; left).
    assert (b ∈ a :: l1) as Hb by (rewrite Hperm; left).
    apply elem_of_cons in Ha as [->|Ha]; [done|].
    apply elem_of_cons in Hb as [->|Hb]; [done|].
    assert (week b ≤ week a)
      by (rewrite Forall_forall in Hle2; apply Hle2, list_elem_of_fmap; eauto).
    assert (week a ≤ week b)
      by (rewrite Forall_forall in Hle1; apply Hle1, list_elem_of_fmap; eauto).
    lia. }
  assert (a = b) as <-.
  { pose proof (Hst (week a)) as H. rewrite !filter_cons in H.
    rewrite decide_True in H by done.
    rewrite decide_True in H by done. congruence. }
  f_equal. apply IH; try done.
  - by apply Permutation_cons_inv in Hperm.
  - intros w. specialize (Hst w). rewrite !filter_cons in Hst.
    destruct (decide (week a = w)); congruence.
Qed.

Lemma sorted_by_week_unique (df sorted : DataFrame) :
  sorted_by_week df sorted → sorted = sort_values_week df.
Proof.
  intros (Hperm & Hasc & Hst). apply stable_ascending_eq; [|done|..].
  - by rewrite sort_values_week_perm.
  - apply sort_values_week_ascending.
  - intros w. by rewrite sort_values_week_stable.
Qed.

Lemma raw_fields_read : raw_fields = rolling_cols.
Proof. reflexivity. Qed.

Lemma weekly_stats_numeric (df : DataFrame) :
  weekly_stats df = true → numeric_stats df = true.
Proof. intros H. exact H. Qed.

(** C2, in exact arithmetic: on a non-empty series of numeric weekly
    statistics and a positive window the smoother returns the rows of the
    series in ascending order of week, and for each of the seven raw fields
    and each position [i] of that order the smoothed cell is a number, the
    arithmetic mean of the field over positions [max(0, i-window+1)]
    through [i]; when the series is shorter than the window, the smoothed
    cell of the last row is the mean of all the raw values.  The cells are
    exact rationals here: the statement is that of the specification with
    rounding left out. *)
Theorem rolling_is_trailing_mean (self : FeatureEngineer)
    (df sorted : DataFrame) :
  0 < window_size self → df ≠ [] → weekly_stats df = true →
  sorted_by_week df sorted →
  ∃ sm, create_rolling_features self df = Ok sm ∧
    map week sm = map week sorted ∧
    (∀ f i, f ∈ raw_fields → (i < length df)%nat →
       ∃ row, sm !! i = Some row ∧
         vals row !! (f +:+ "_rolling_" +:+ pretty (window_size self)) =
         Some (Num (trailing_mean (window_size self)
                      (raw_values f sorted) i))) ∧
    (Z.of_nat (length df) < window_size self →
     ∀ f, f ∈ raw_fields →
       ∃ row, last sm = Some row ∧
         vals row !! (f +:+ "_rolling_" +:+ pretty (window_size self)) =
         Some (Num (arithmetic_mean (raw_values f df)))).
Proof.
  intros Hw Hne Hnum Hsorted.
  apply sorted_by_week_unique in Hsorted as ->.
  apply weekly_stats_numeric in Hnum.
  destruct (create_rolling_features_succeeds self df) as [sm Hsm];
    [lia|by apply numeric_stats_raw_present|].
  pose proof (create_rolling_features_length _ _ _ Hsm) as Hlen.
  exists sm. split; [done|].
  split; [by eapply create_rolling_features_weeks|]. split.
  - intros f i Hf Hi. rewrite raw_fields_read in Hf.
    destruct (lookup_lt_is_Some_2 sm i) as [row Hrow]; [lia|].
    exists row. split; [done|].
    change (f +:+ "_rolling_" +:+ pretty (window_size self))
      with (rolling_name self f).
    eapply smoothed_numeric; eauto. lia.
  - intros Hshort f Hf. rewrite raw_fields_read in Hf.
    assert (0 < length df)%nat as Hpos by (destruct df; [done|simpl; lia]).
    destruct (lookup_lt_is_Some_2 sm (length df - 1)) as [row Hrow]; [lia|].
    exists row. split.
    { rewrite last_lookup, Hlen.
      by replace (Nat.pred (length df)) with (length df - 1)%nat by lia. }
    change (f +:+ "_rolling_" +:+ pretty (window_size self))
      with (rolling_name self f).
    rewrite (smoothed_numeric self df sm f (length df - 1) row); [|lia|done..].
    do 2 f_equal. unfold trailing_mean.
    rewrite <- (arithmetic_mean_perm _ _ (raw_values_sort f df)).
    f_equal.
    replace (trailing_start (window_size self) (length df - 1)) with 0%nat
      by (unfold trailing_start; lia).
    replace (length df) with (length (raw_values f (sort_values_week df)))
      by (unfold raw_values; by rewrite length_map, sort_values_week_length).
    apply positions_all. intros Hnil. apply (f_equal length) in Hnil.
    unfold raw_values in Hnil.
    rewrite length_map, sort_values_week_length in Hnil. simpl in Hnil. lia.
Qed.

(** C2 as the specification words it does not hold of the binary64 numbers
    pandas computes with.  Five weeks of [epa], in week order four times
    0.90981536930743878 and once the next number above it, window 5: the
    smoothed value of the fifth week is 0.90981536930743867, the number just
    below.  It is not the arithmetic mean of the five raw values; it is
    smaller than each of them. *)
Lemma binary64_mean_is_rounded :
  ∃ (r : list PrimFloat.float) (q : Qc) (raw : list Qc),
    Binary64.smooth engineer5 Binary64.epa_by_week = Ok r ∧
    r !! 4%nat = Some Binary64.epa_below ∧
    mapM Binary64.exact Binary64.epa_by_week = Some raw ∧
    Binary64.exact Binary64.epa_below = Some q ∧
    q ≠ trailing_mean 5 raw 4 ∧
    q ≠ arithmetic_mean raw ∧
    Forall (λ x, (q < x)%Qc) raw.
Proof.
  eexists _, _, _.
  split; [vm_compute; reflexivity|].
  split; [vm_compute; reflexivity|].
  split; [vm_compute; reflexivity|].
  split; [vm_compute; reflexivity|].
  split; [compute_done|]. split; [compute_done|].
  repeat constructor.
Qed.

(** ** Matchup features *)

Lemma cell_sub_swap (a b : cell) : cell_sub b a = cell_neg (cell_sub a b).
Proof. destruct a, b; simpl; try done. f_equal. ring. Qed.

Lemma cell_mul_neg (a b : cell) :
  cell_mul (cell_neg a) b = cell_neg (cell_mul a b).
Proof. destruct a, b; simpl; try done. f_equal. ring. Qed.

Lemma cell_mul_comm (a b : cell) : cell_mul a b = cell_mul b a.
Proof. destruct a, b; simpl; try done. f_equal. ring. Qed.

Lemma row_get_smoothed (self : FeatureEngineer) (r : Row) (f : string) :
  has_smoothed self r = true → f ∈ rolling_cols →
  row_get (rolling_name self f) r = Ok (smoothed self r f).
Proof.
  unfold has_smoothed, row_get, smoothed. rewrite forallb_forall.
  intros H Hf. apply list_elem_of_In in Hf.
  apply H, bool_decide_eq_true in Hf as [c ->]. done.
Qed.

Ltac lookup_feature :=
  repeat (rewrite lookup_insert_ne by done); rewrite lookup_insert_eq.

(** The single row the builder returns, field by field as the code computes
    it. *)
Lemma matchup_fields (self : FeatureEngineer) (team1 team2 : DataFrame)
    (s1 s2 : Row) :
  last team1 = Some s1 → last team2 = Some s2 →
  has_smoothed self s1 = true → has_smoothed self s2 = true →
  let v1 := smoothed self s1 in
  let v2 := smoothed self s2 in
  ∃ row, create_matchup_features self team1 team2 = Ok [row] ∧
    row !! "pts_diff" = Some (cell_sub (v1 "points") (v2 "points")) ∧
    row !! "epa_diff" = Some (cell_sub (v1 "epa") (v2 "epa")) ∧
    row !! "success_diff" = Some (cell_sub (v1 "success") (v2 "success")) ∧
    row !! "turnover_diff" = Some (cell_sub (v1 "turnovers") (v2 "turnovers")) ∧
    row !! "t1_epa" = Some (v1 "epa") ∧
    row !! "t2_epa" = Some (v2 "epa") ∧
    row !! "t1_success" = Some (v1 "success") ∧
    row !! "t2_success" = Some (v2 "success") ∧
    row !! "def_epa_diff" =
      Some (cell_mul (cell_sub (v1 "def_epa") (v2 "def_epa")) two) ∧
    row !! "pts_allowed_diff" =
      Some (cell_mul (cell_sub (v1 "pts_allowed") (v2 "pts_allowed")) two) ∧
    row !! "sacks_diff" =
      Some (cell_mul (cell_sub (v1 "sacks") (v2 "sacks")) two) ∧
    row !! "net_pts_diff" =
      Some (cell_sub (cell_sub (v1 "points") (v1 "pts_allowed"))
                     (cell_sub (v2 "points") (v2 "pts_allowed"))).
Proof.
  intros Hl1 Hl2 H1 H2 v1 v2.
  unfold create_matchup_features, iloc_last, diff_of.
  rewrite Hl1, Hl2. simpl.
  rewrite !(row_get_smoothed self s1), !(row_get_smoothed self s2)
    by (done || compute_done).
  simpl. eexists. split; [reflexivity|].
  repeat split; by lookup_feature.
Qed.

(** C3: for two non-empty smoothed histories whose last rows are [s1] and
    [s2], the builder returns exactly one row; its three weighted fields are
    2.0 times the difference of the smoothed values of [s1] and [s2],
    [net_pts_diff] is (points - points allowed) of [s1] minus that of [s2],
    and the unweighted differences and the four absolute fields are read
    from the same two rows. *)
Theorem matchup_row_formulas (self : FeatureEngineer) (team1 team2 : DataFrame)
    (s1 s2 : Row) :
  last team1 = Some s1 → last team2 = Some s2 →
  has_smoothed self s1 = true → has_smoothed self s2 = true →
  let v1 := smoothed self s1 in
  let v2 := smoothed self s2 in
  ∃ row, create_matchup_features self team1 team2 = Ok [row] ∧
    row !! "def_epa_diff" =
      Some (cell_mul two (cell_sub (v1 "def_epa") (v2 "def_epa"))) ∧
    row !! "pts_allowed_diff" =
      Some (cell_mul two (cell_sub (v1 "pts_allowed") (v2 "pts_allowed"))) ∧
    row !! "sacks_diff" =
      Some (cell_mul two (cell_sub (v1 "sacks") (v2 "sacks"))) ∧
    row !! "net_pts_diff" =
      Some (cell_sub (cell_sub (v1 "points") (v1 "pts_allowed"))
                     (cell_sub (v2 "points") (v2 "pts_allowed"))) ∧
    row !! "pts_diff" = Some (cell_sub (v1 "points") (v2 "points")) ∧
    row !! "epa_diff" = Some (cell_sub (v1 "epa") (v2 "epa")) ∧
    row !! "success_diff" = Some (cell_sub (v1 "success") (v2 "success")) ∧
    row !! "turnover_diff" = Some (cell_sub (v1 "turnovers") (v2 "turnovers")) ∧
    row !! "t1_epa" = Some (v1 "epa") ∧
    row !! "t2_epa" = Some (v2 "epa") ∧
    row !! "t1_success" = Some (v1 "success") ∧
    row !! "t2_success" = Some (v2 "success").
Proof.
  intros Hl1 Hl2 H1 H2 v1 v2.
  destruct (matchup_fields self team1 team2 s1 s2 Hl1 Hl2 H1 H2)
    as (row & Hrow & Hp & He & Hs & Ht & H1e & H2e & H1s & H2s
        & Hde & Hpa & Hsa & Hnet).
  exists row. rewrite !(cell_mul_comm two). by repeat split.
Qed.

(** C4: swapping the two histories negates each of the eight [*_diff]
    fields and exchanges each [t1_*] value with its [t2_*] value: every one
    of the twelve fields is present in both rows, a [*_diff] field of the
    swapped row holds the negated value of the same field of the other row,
    and [t1_epa], [t1_success] of one row are [t2_epa], [t2_success] of the
    other.  Before and after the swap the three weighted fields are 2.0
    times the difference of the smoothed values, taken in the direction of
    the arguments. *)
Theorem matchup_swap (self : FeatureEngineer) (A B : DataFrame) (sA sB : Row) :
  last A = Some sA → last B = Some sB →
  has_smoothed self sA = true → has_smoothed self sB = true →
  let vA := smoothed self sA in
  let vB := smoothed self sB in
  ∃ ab ba,
    create_matchup_features self A B = Ok [ab] ∧
    create_matchup_features self B A = Ok [ba] ∧
    (∀ d, d ∈ diff_fields →
       ∃ v, ab !! d = Some v ∧ ba !! d = Some (cell_neg v)) ∧
    (ab !! "t1_epa" = Some (vA "epa") ∧ ba !! "t2_epa" = Some (vA "epa")) ∧
    (ab !! "t2_epa" = Some (vB "epa") ∧ ba !! "t1_epa" = Some (vB "epa")) ∧
    (ab !! "t1_success" = Some (vA "success") ∧
     ba !! "t2_success" = Some (vA "success")) ∧
    (ab !! "t2_success" = Some (vB "success") ∧
     ba !! "t1_success" = Some (vB "success")) ∧
    (ab !! "def_epa_diff" =
       Some (cell_mul two (cell_sub (vA "def_epa") (vB "def_epa"))) ∧
     ba !! "def_epa_diff" =
       Some (cell_mul two (cell_sub (vB "def_epa") (vA "def_epa")))) ∧
    (ab !! "pts_allowed_diff" =
       Some (cell_mul two (cell_sub (vA "pts_allowed") (vB "pts_allowed"))) ∧
     ba !! "pts_allowed_diff" =
       Some (cell_mul two (cell_sub (vB "pts_allowed") (vA "pts_allowed")))) ∧
    (ab !! "sacks_diff" =
       Some (cell_mul two (cell_sub (vA "sacks") (vB "sacks"))) ∧
     ba !! "sacks_diff" =
       Some (cell_mul two (cell_sub (vB "sacks") (vA "sacks")))).
Proof.
  intros HA HB HsA HsB vA vB.
  destruct (matchup_fields self A B sA sB HA HB HsA HsB)
    as (ab & Hab & Hp & He & Hs & Ht & H1e & H2e & H1s & H2s
        & Hde & Hpa & Hsa & Hnet).
  destruct (matchup_fields self B A sB sA HB HA HsB HsA)
    as (ba & Hba & Hp' & He' & Hs' & Ht' & H1e' & H2e' & H1s' & H2s'
        & Hde' & Hpa' & Hsa' & Hnet').
  exists ab, ba. split; [done|]. split; [done|]. split.
  { intros d Hd. unfold diff_fields in Hd.
    repeat (apply elem_of_cons in Hd as [->|Hd]);
      [..|by apply elem_of_nil in Hd];
      match goal with
      | H : ba !! ?k = _, H' : ab !! ?k = Some ?v
        |- ∃ _, ab !! ?k = _ ∧ ba !! ?k = _ =>
          exists v; split; [exact H'|]; rewrite H; f_equal
      end;
      rewrite <- ?cell_mul_neg; by rewrite <- ?cell_sub_swap. }
  fold vA vB in H1e, H2e, H1s, H2s, H1e', H2e', H1s', H2s'.
  rewrite H1e', H2e', H1s', H2s', H1e, H2e, H1s, H2s,
    Hde, Hpa, Hsa, Hde', Hpa', Hsa'.
  rewrite !(cell_mul_comm two). by repeat split.
Qed.

(** C8: an empty history on either side makes the builder raise (pandas'
    IndexError of [iloc[-1]]) and no row of default values is returned; on
    non-empty histories the result is that of their last rows alone. *)
Theorem matchup_empty_input (self : FeatureEngineer) :
  (∀ team2, create_matchup_features self [] team2 = Err IndexError) ∧
  (∀ team1, create_matchup_features self team1 [] = Err IndexError) ∧
  (∀ l1 s1 l2 s2,
     create_matchup_features self (l1 ++ [s1]) (l2 ++ [s2]) =
     create_matchup_features self [s1] [s2]).
Proof.
  unfold create_matchup_features, iloc_last. split; [done|]. split.
  - intros team1. by destruct (last team1).
  - intros l1 s1 l2 s2. by rewrite !last_snoc.
Qed.

(** ** The training loop *)

Lemma create_matchup_features_one_row (self : FeatureEngineer)
    (team1 team2 : DataFrame) (f : FeatureFrame) :
  create_matchup_features self team1 team2 = Ok f → ∃ row, f = [row].
Proof.
  unfold create_matchup_features. intros H.
  repeat (apply bind_Ok in H as (? & _ & H)).
  injection H as <-. by eexists.
Qed.

Section training_loop.
Context (self : FeatureEngineer) (all_team_stats : gmap string DataFrame).

Lemma training_loop_acc (acc : list FeatureFrame) (games : list ScheduledGame) :
  foldM (λ acc game,
           o ← game_features self all_team_stats game;
           mret (match o with Some features => acc ++ [features] | None => acc end))
        acc games =
  (λ rows, acc ++ rows) <$>
  foldM (λ acc game,
           o ← game_features self all_team_stats game;
           mret (match o with Some features => acc ++ [features] | None => acc end))
        [] games.
Proof.
  revert acc. induction games as [|g games IH]; intros acc; simpl.
  - by rewrite app_nil_r.
  - destruct (game_features self all_team_stats g) as [[f|]|e]; simpl; [| |done].
    + rewrite (IH (acc ++ [f])), (IH [f]).
      destruct (foldM _ [] games); simpl; [|done]. by rewrite <- app_assoc.
    + apply IH.
Qed.

(** The loop, one game at a time: a game outside the regular season is
    filtered out, another one adds what its pass appends. *)
Lemma training_data_cons (game : ScheduledGame) (games : list ScheduledGame) :
  training_data self all_team_stats (game :: games) =
  if decide (game_type game = "REG") then
    o ← game_features self all_team_stats game;
    rest ← training_data self all_team_stats games;
    mret (match o with Some features => features :: rest | None => rest end)
  else training_data self all_team_stats games.
Proof.
  unfold training_data. rewrite filter_cons.
  destruct (decide (game_type game = "REG")) as [Hreg|Hreg]; [|done]. simpl.
  destruct (game_features self all_team_stats game) as [[f|]|err]; simpl.
  - rewrite training_loop_acc. by destruct (foldM _ [] _).
  - by destruct (foldM _ [] _).
  - done.
Qed.

(** Rows come out in schedule order. *)
Lemma training_data_app (games1 games2 : list ScheduledGame) :
  training_data self all_team_stats (games1 ++ games2) =
  rows1 ← training_data self all_team_stats games1;
  rows2 ← training_data self all_team_stats games2;
  mret (rows1 ++ rows2).
Proof.
  induction games1 as [|g games1 IH].
  - simpl. change (training_data self all_team_stats []) with (Ok (@nil FeatureFrame)).
    simpl. by destruct (training_data _ _ games2).
  - rewrite <- app_comm_cons, !training_data_cons.
    destruct (decide (game_type g = "REG")) as [Hreg|Hreg]; [|done].
    destruct (game_features self all_team_stats g) as [[f|]|err]; simpl; try done;
      rewrite IH; destruct (training_data _ _ games1); simpl; try done;
      by destruct (training_data _ _ games2).
Qed.

Lemma training_data_single (game : ScheduledGame) :
  training_data self all_team_stats [game] =
  if decide (game_type game = "REG") then
    o ← game_features self all_team_stats game;
    mret (match o with Some features => [features] | None => [] end)
  else Ok [].
Proof.
  rewrite training_data_cons.
  destruct (decide (game_type game = "REG")) as [Hreg|Hreg]; [|done].
  by destruct (game_features self all_team_stats game) as [[f|]|err].
Qed.

(** [pd.concat] of no table at all raises. *)
Lemma prepare_training_data_no_rows (games : list ScheduledGame) :
  training_data self all_team_stats games = Ok [] →
  prepare_training_data self all_team_stats games =
  Err (ValueError "No objects to concatenate").
Proof. unfold prepare_training_data. by intros ->. Qed.

(** What one pass computes when both teams are in the dictionary. *)
Lemma game_features_found (game : ScheduledGame) (home away : DataFrame) :
  all_team_stats !! home_team game = Some home →
  all_team_stats !! away_team game = Some away →
  game_features self all_team_stats game =
  if ((prior_weeks (game_week game) home <? 3)
      || (prior_weeks (game_week game) away <? 3))%nat
  then Ok None
  else
    features ← create_matchup_features self
                 (before_week (game_week game) home)
                 (before_week (game_week game) away);
    mret (Some (set_scalar "point_diff"
                  (Num (Qc_of_Z (home_score game - away_score game)))
                  (set_scalar "home_win"
                     (Num (Qc_of_Z (if home_score game >? away_score game
                                    then 1 else 0)))
                     features))).
Proof.
  intros Hh Ha. unfold game_features, dict_get, prior_weeks.
  rewrite Hh, Ha. done.
Qed.
End training_loop.

(** ** Eligible games *)

Lemma create_rolling_features_has_smoothed (self : FeatureEngineer)
    (df sm : DataFrame) :
  create_rolling_features self df = Ok sm →
  Forall (λ r, has_smoothed self r = true) sm.
Proof.
  intros Hsm. apply Forall_lookup. intros i r Hi.
  unfold has_smoothed. apply forallb_forall. intros f Hf.
  apply list_elem_of_In in Hf. apply bool_decide_eq_true.
  destruct (create_rolling_features_value _ _ _ _ _ _ Hsm Hf Hi) as (s & _ & ->).
  by eexists.
Qed.

Lemma before_week_last_smoothed (self : FeatureEngineer) (w : Z) (sm : DataFrame) :
  Forall (λ r, has_smoothed self r = true) sm →
  (0 < prior_weeks w sm)%nat →
  ∃ s, last (before_week w sm) = Some s ∧ has_smoothed self s = true.
Proof.
  intros Hall Hpos. unfold prior_weeks in Hpos.
  destruct (last (before_week w sm)) as [s|] eqn:Hlast.
  - exists s. split; [done|]. apply last_Some_elem_of in Hlast.
    unfold before_week in Hlast. apply list_elem_of_filter in Hlast as [_ Hin].
    rewrite Forall_forall in Hall. by apply Hall.
  - apply last_None in Hlast. rewrite Hlast in Hpos. simpl in Hpos. lia.
Qed.

(** The pass of a game whose two teams have smoothed tables in the
    dictionary: it skips the game exactly when a team has fewer than three
    rows before the game's week, and appends one row otherwise. *)
Lemma game_features_smoothed (self : FeatureEngineer)
    (all_team_stats : gmap string DataFrame) (game : ScheduledGame)
    (home away : DataFrame) :
  all_team_stats !! home_team game = Some home →
  all_team_stats !! away_team game = Some away →
  Forall (λ r, has_smoothed self r = true) home →
  Forall (λ r, has_smoothed self r = true) away →
  ((3 ≤ prior_weeks (game_week game) home)%nat ∧
   (3 ≤ prior_weeks (game_week game) away)%nat ∧
   ∃ row, game_features self all_team_stats game = Ok (Some [row])) ∨
  (((prior_weeks (game_week game) home < 3)%nat ∨
    (prior_weeks (game_week game) away < 3)%nat) ∧
   game_features self all_team_stats game = Ok None).
Proof.
  intros Hh Ha Hsh Hsa. rewrite (game_features_found _ _ _ _ _ Hh Ha).
  destruct (Nat.ltb_spec (prior_weeks (game_week game) home) 3) as [H1|H1];
    simpl; [right; split; [by left|done]|].
  destruct (Nat.ltb_spec (prior_weeks (game_week game) away) 3) as [H2|H2];
    simpl; [right; split; [by right|done]|].
  left. split; [done|]. split; [done|].
  destruct (before_week_last_smoothed self (game_week game) home Hsh)
    as (s1 & Hl1 & Hs1); [lia|].
  destruct (before_week_last_smoothed self (game_week game) away Hsa)
    as (s2 & Hl2 & Hs2); [lia|].
  destruct (matchup_fields self _ _ s1 s2 Hl1 Hl2 Hs1 Hs2) as (row & -> & _).
  simpl. by eexists.
Qed.


(** ** Labels *)

Lemma game_features_labels (self : FeatureEngineer)
    (all_team_stats : gmap string DataFrame) (game : ScheduledGame)
    (features : FeatureFrame) :
  game_features self all_team_stats game = Ok (Some features) →
  ∃ row, features = [row] ∧
    row !! "home_win" =
      Some (Num (Qc_of_Z (if home_score game >? away_score game then 1 else 0))) ∧
    row !! "point_diff" =
      Some (Num (Qc_of_Z (home_score game - away_score game))).
Proof.
  unfold game_features.
  intros (home & _ & (away & _ & H)%bind_Ok)%bind_Ok.
  destruct (_ || _)%nat; [done|].
  apply bind_Ok in H as (f & Hf & [= <-]).
  apply create_matchup_features_one_row in Hf as [row ->].
  eexists. split; [reflexivity|]. simpl.
  split; [by rewrite lookup_insert_ne, lookup_insert_eq|by rewrite lookup_insert_eq].
Qed.

Lemma adds_row_true (self : FeatureEngineer)
    (all_team_stats : gmap string DataFrame) (game : ScheduledGame) :
  adds_row self all_team_stats game = true ↔
  game_type game = "REG" ∧
  ∃ features, game_features self all_team_stats game = Ok (Some features).
Proof.
  unfold adds_row. rewrite andb_true_iff, bool_decide_eq_true.
  destruct (game_features self all_team_stats game) as [[f|]|err];
    split; intros [Hreg H]; try done; try (by destruct H).
  split; [done|]. by exists f.
Qed.

Lemma training_data_labels (self : FeatureEngineer)
    (all_team_stats : gmap string DataFrame) (games : list ScheduledGame)
    (rows : list FeatureFrame) :
  training_data self all_team_stats games = Ok rows →
  Forall2 (λ game features, ∃ row, features = [row] ∧
             row !! "home_win" =
               Some (Num (Qc_of_Z (if home_score game >? away_score game
                                   then 1 else 0))) ∧
             row !! "point_diff" =
               Some (Num (Qc_of_Z (home_score game - away_score game))))
          (filter (λ game, adds_row self all_team_stats game = true) games) rows.
Proof.
  revert rows. induction games as [|g games IH]; intros rows.
  - intros [= <-]. constructor.
  - rewrite training_data_cons.
    destruct (decide (game_type g = "REG")) as [Hreg|Hreg].
    + destruct (game_features self all_team_stats g) as [[f|]|err] eqn:Hf;
        [| |done].
      * rewrite bind_Ok_l.
        destruct (training_data self all_team_stats games) as [rest|]; [|done].
        intros [= <-]. rewrite filter_cons_True
          by (apply adds_row_true; split; [done|by exists f]).
        constructor; [by apply game_features_labels in Hf|by apply IH].
      * rewrite bind_Ok_l.
        destruct (training_data self all_team_stats games) as [rest|]; [|done].
        intros [= <-]. rewrite filter_cons_False; [by apply IH|].
        rewrite adds_row_true, Hf. by intros (_ & f & [=]).
    + rewrite filter_cons_False; [apply IH|].
      rewrite adds_row_true. by intros [? _].
Qed.

Lemma concat_one_row {A} (P : A → FeatureRow → Prop) (xs : list A)
    (frames : list FeatureFrame) :
  Forall2 (λ x features, ∃ row, features = [row] ∧ P x row) xs frames →
  Forall2 P xs (concat frames).
Proof.
  induction 1 as [|x f xs frames (row & -> & Hrow) _ IH]; simpl;
    by constructor.
Qed.

(** C6: the row a game adds carries [home_win] = 1 when the home score is
    greater than the away score and 0 otherwise (a tie gives 0), and
    [point_diff] = home score minus away score.  This holds for the pass of
    the loop, for the table [prepare_training_data] returns on a schedule of
    that one game, and row by row for the table it returns on any schedule,
    whose rows are those of the games that add one, in schedule order. *)
Theorem labels_of_training_row (self : FeatureEngineer)
    (all_team_stats : gmap string DataFrame) :
  let home_win game :=
    Num (Qc_of_Z (if home_score game >? away_score game then 1 else 0)) in
  let point_diff game := Num (Qc_of_Z (home_score game - away_score game)) in
  (∀ game features,
     game_features self all_team_stats game = Ok (Some features) →
     ∃ row, features = [row] ∧ row !! "home_win" = Some (home_win game) ∧
            row !! "point_diff" = Some (point_diff game)) ∧
  (∀ game out,
     prepare_training_data self all_team_stats [game] = Ok out →
     ∃ row, out = [row] ∧ row !! "home_win" = Some (home_win game) ∧
            row !! "point_diff" = Some (point_diff game)) ∧
  (∀ games out,
     prepare_training_data self all_team_stats games = Ok out →
     Forall2 (λ game row, row !! "home_win" = Some (home_win game) ∧
                          row !! "point_diff" = Some (point_diff game))
             (filter (λ game, adds_row self all_team_stats game = true) games)
             out) ∧
  (∀ game, home_score game = away_score game →
           home_win game = Num (Qc_of_Z 0)).
Proof.
  intros home_win point_diff. split; [|split; [|split]].
  - apply game_features_labels.
  - intros game out. unfold prepare_training_data.
    rewrite training_data_single.
    destruct (decide _) as [_|?]; [|done].
    destruct (game_features self all_team_stats game) as [[f|]|err] eqn:Hf;
      simpl; try done.
    apply game_features_labels in Hf as (row & -> & H1 & H2).
    simpl. intros [= <-]. by exists row.
  - intros games out. unfold prepare_training_data.
    destruct (training_data self all_team_stats games) as [rows|] eqn:Hrows;
      [|done].
    rewrite bind_Ok_l. destruct rows as [|f rows]; [done|].
    intros [= <-]. apply (concat_one_row _ _ (f :: rows)).
    by apply training_data_labels in Hrows.
  - intros game Heq. unfold home_win.
    destruct (Z.gtb_spec (home_score game) (away_score game)); [lia|done].
Qed.

(** C7: with no eligible game the list handed to [pd.concat] is empty and
    [prepare_training_data] raises ValueError instead of returning an empty
    table; shown on an empty schedule, on a schedule of one playoff game and
    on a regular-season game whose teams have no prior weeks. *)
Theorem no_eligible_game_raises :
  let engineer := FeatureEngineer_init None in
  let no_stats : gmap string DataFrame := {[ "SEA" := []; "NE" := [] ]} in
  prepare_training_data engineer no_stats [] =
    Err (ValueError "No objects to concatenate") ∧
  prepare_training_data engineer no_stats [mkGame "SB" 22 "SEA" "NE" 29 13] =
    Err (ValueError "No objects to concatenate") ∧
  prepare_training_data engineer no_stats [mkGame "REG" 1 "SEA" "NE" 24 10] =
    Err (ValueError "No objects to concatenate").
Proof. by vm_compute. Qed.

(** ** No leakage *)

Lemma build_loop_lookup (fetch : string → DataFrame) (engineer : FeatureEngineer)
    (teams : list string) (m0 ats : gmap string DataFrame) (t : string) :
  foldM (λ all_team_stats team,
           stats ← create_rolling_features engineer (fetch team);
           mret (<[team := stats]> all_team_stats)) m0 teams = Ok ats →
  (t ∈ teams →
   ∃ sm, ats !! t = Some sm ∧ create_rolling_features engineer (fetch t) = Ok sm) ∧
  (t ∉ teams → ats !! t = m0 !! t).
Proof.
  revert m0. induction teams as [|t0 teams IH]; intros m0; simpl.
  - intros [= <-]. split; [by intros ?%elem_of_nil|done].
  - intros (m1 & (sm0 & Hsm0 & [= <-])%bind_Ok & Hrest)%bind_Ok.
    destruct (IH _ Hrest) as [Hin Hout]. split.
    + intros Ht. destruct (decide (t ∈ teams)) as [Hmem|Hmem]; [by apply Hin|].
      apply elem_of_cons in Ht as [->|Ht]; [|done].
      exists sm0. by rewrite (Hout Hmem), lookup_insert_eq.
    + intros [Hne Hmem]%not_elem_of_cons.
      by rewrite (Hout Hmem), lookup_insert_ne.
Qed.

Lemma same_before_built (fetch fetch' : string → DataFrame)
    (engineer : FeatureEngineer) (schedules : list ScheduledGame)
    (ats ats' : gmap string DataFrame) (w : Z) (t : string) :
  build_all_team_stats fetch engineer schedules = Ok ats →
  build_all_team_stats fetch' engineer schedules = Ok ats' →
  before_week w (fetch t) = before_week w (fetch' t) →
  same_before w (ats !! t) (ats' !! t).
Proof.
  unfold build_all_team_stats. intros H H' Heq.
  destruct (build_loop_lookup _ _ _ _ _ t H) as [Hin Hout].
  destruct (build_loop_lookup _ _ _ _ _ t H') as [Hin' Hout'].
  destruct (decide (t ∈ unique (map home_team schedules))) as [Ht|Ht].
  - destruct (Hin Ht) as (sm & -> & Hsm).
    destruct (Hin' Ht) as (sm' & -> & Hsm'). simpl.
    apply (create_rolling_features_before_week _ _ _ w) in Hsm, Hsm'.
    rewrite Heq in Hsm. congruence.
  - by rewrite (Hout Ht), (Hout' Ht).
Qed.

Lemma game_features_same_before (self : FeatureEngineer)
    (ats ats' : gmap string DataFrame) (game : ScheduledGame) :
  same_before (game_week game) (ats !! home_team game) (ats' !! home_team game) →
  same_before (game_week game) (ats !! away_team game) (ats' !! away_team game) →
  game_features self ats game = game_features self ats' game.
Proof.
  unfold game_features, dict_get, same_before.
  destruct (ats !! home_team game), (ats' !! home_team game); simpl; try done.
  intros ->.
  destruct (ats !! away_team game), (ats' !! away_team game); simpl; try done.
  by intros ->.
Qed.

(** C1: let the per-team histories be built as [main] builds them, each
    smoothed over its whole season, from two data sources.  For a game at
    week [w], if the two sources agree on the rows of the home and of the
    away team with week < [w] (and differ at will on the rows with week >=
    [w]), the pass of the loop for that game computes the same result from
    both; so the training table is the same whenever this holds for every
    regular-season game of the schedule. *)
Theorem no_leakage (fetch fetch' : string → DataFrame)
    (engineer : FeatureEngineer) (schedules : list ScheduledGame)
    (ats ats' : gmap string DataFrame) :
  build_all_team_stats fetch engineer schedules = Ok ats →
  build_all_team_stats fetch' engineer schedules = Ok ats' →
  (∀ game, same_prior_weeks fetch fetch' game →
     game_features engineer ats game = game_features engineer ats' game) ∧
  ((∀ game, game ∈ schedules → game_type game = "REG" →
      same_prior_weeks fetch fetch' game) →
   prepare_training_data engineer ats schedules =
   prepare_training_data engineer ats' schedules ∧
   training_df fetch engineer schedules = training_df fetch' engineer schedules).
Proof.
  intros H H'.
  assert (∀ game, same_prior_weeks fetch fetch' game →
            game_features engineer ats game = game_features engineer ats' game)
    as Hgame.
  { intros game [Hhome Haway].
    apply game_features_same_before; by eapply same_before_built. }
  split; [done|]. intros Hall.
  assert (prepare_training_data engineer ats schedules =
          prepare_training_data engineer ats' schedules) as Heq.
  { unfold prepare_training_data, training_data. f_equal.
    apply foldM_ext. intros acc game [Hreg Hin]%list_elem_of_filter.
    by rewrite Hgame by by apply Hall. }
  split; [done|]. unfold training_df. by rewrite H, H'.
Qed.

(** ** Invalid windows *)

Lemma add_rolling_invalid (self : FeatureEngineer) (df : DataFrame) (c : string) :
  window_size self ≤ 0 →
  ∃ e, add_rolling self df c = Err e ∧
       (is_Some (mapM (λ r, vals r !! c) df) →
        e = ValueError "min_periods must be <= window").
Proof.
  intros Hw. unfold add_rolling.
  destruct (getitem c df) as [s|e] eqn:Hs.
  - rewrite bind_Ok_l, rolling_mean_Err, bind_Err_l by done. by eexists.
  - rewrite bind_Err_l. eexists. split; [done|]. intros [s Hs'].
    exfalso. apply mapM_Some in Hs'.
    assert (getitem c df = Ok s) as Hok by by apply getitem_Ok.
    congruence.
Qed.

Lemma create_rolling_features_first (self : FeatureEngineer) (df : DataFrame) :
  create_rolling_features self df =
  add_rolling self (sort_values_week df) "points" ≫= λ team_stats,
    foldM (add_rolling self) team_stats
      ["epa"; "success"; "def_epa"; "pts_allowed"; "turnovers"; "sacks"].
Proof. done. Qed.

(** C9: with a window <= 0 the smoother raises and returns no table, and on
    a table that has the raw columns the exception is the ValueError of
    [rolling] (min_periods 1 exceeds the window); with a window > 0 it
    returns a table as long as its input. *)
Theorem invalid_window_rejected (self : FeatureEngineer) (df : DataFrame) :
  (window_size self ≤ 0 → ∃ e, create_rolling_features self df = Err e) ∧
  (window_size self ≤ 0 → has_raw_columns df = true →
   create_rolling_features self df =
   Err (ValueError "min_periods must be <= window")) ∧
  (0 < window_size self → has_raw_columns df = true →
   ∃ sm, create_rolling_features self df = Ok sm ∧ length sm = length df).
Proof.
  split; [|split].
  - intros Hw. rewrite create_rolling_features_first.
    destruct (add_rolling_invalid self (sort_values_week df) "points" Hw)
      as (e & -> & _).
    by exists e.
  - intros Hw Hraw%has_raw_columns_spec%sort_values_week_raw_present.
    rewrite create_rolling_features_first.
    destruct (add_rolling_invalid self (sort_values_week df) "points" Hw)
      as (e & -> & He).
    rewrite bind_Err_l. f_equal. apply He.
    destruct (getitem_present "points" _ ltac:(compute_done) Hraw) as [s Hs].
    exists s. apply mapM_Some. by apply getitem_Ok.
  - intros Hw Hraw%has_raw_columns_spec.
    destruct (create_rolling_features_succeeds self df) as [sm Hsm];
      [lia|done|].
    exists sm. split; [done|]. by eapply create_rolling_features_length.
Qed.

(** ** The caller's table *)

Lemma smooth_column_step (self : FeatureEngineer) (l : Refs.loc) (c : string)
    (σ : gmap nat DataFrame) (df : DataFrame) :
  σ !! l = Some df →
  Refs.smooth_column self l c σ =
  match add_rolling self df c with
  | Ok df' => Refs.Returns () (<[l := df']> σ)
  | Err e => Refs.Raises e σ
  end.
Proof.
  intros Hl.
  unfold Refs.smooth_column, Refs.getitem, Refs.setitem, Refs.read,
    Refs.write, Refs.lift, add_rolling, mbind, Refs.M_bind, result_bind.
  rewrite Hl. destruct (getitem c df) as [s|e]; [|done].
  destruct (rolling_mean (window_size self) 1 s) as [r|e]; [|done].
  rewrite Hl. cbn beta iota. by rewrite Hl.
Qed.

Lemma for_each_cons {A} (body : A → Refs.M unit) (x : A) (l : list A)
    (σ : gmap nat DataFrame) :
  Refs.for_each body (x :: l) σ =
  match body x σ with
  | Refs.Returns _ σ' => Refs.for_each body l σ'
  | Refs.Raises e σ' => Refs.Raises e σ'
  | Refs.Stuck => Refs.Stuck
  end.
Proof. done. Qed.

Lemma for_each_add_rolling (self : FeatureEngineer) (l : Refs.loc)
    (cols : list string) (σ : gmap nat DataFrame) (df : DataFrame) :
  σ !! l = Some df →
  match Refs.for_each (Refs.smooth_column self l) cols σ with
  | Refs.Returns _ σ' =>
      ∃ df', foldM (add_rolling self) df cols = Ok df' ∧ σ' = <[l := df']> σ
  | Refs.Raises e σ' =>
      foldM (add_rolling self) df cols = Err e ∧ ∃ df', σ' = <[l := df']> σ
  | Refs.Stuck => False
  end.
Proof.
  revert σ df. induction cols as [|c cols IH]; intros σ df Hl.
  - simpl. exists df. split; [done|]. by rewrite insert_id.
  - rewrite for_each_cons, (smooth_column_step self l c σ df Hl).
    change (foldM (add_rolling self) df (c :: cols))
      with (add_rolling self df c ≫= λ acc, foldM (add_rolling self) acc cols).
    destruct (add_rolling self df c) as [df1|e].
    + rewrite bind_Ok_l.
      specialize (IH (<[l := df1]> σ) df1 (lookup_insert_eq _ _ _)).
      destruct (Refs.for_each _ cols _) as [u σ'|e σ'|]; [| |done].
      * destruct IH as (df' & Hdf' & ->). exists df'.
        split; [done|]. by rewrite insert_insert_eq.
      * destruct IH as (Hdf' & df' & ->). split; [done|].
        exists df'. by rewrite insert_insert_eq.
    + rewrite bind_Err_l. split; [done|]. exists df. by rewrite insert_id.
Qed.

(** C10: a call of the smoother on a table of the store never gets stuck;
    whether it returns or raises, the table the caller passed and every
    other table the store held are what they were, row for row and column
    for column; when it returns, the result is a table that was not in the
    store before, and the smoothed columns are in that table only. *)
Theorem caller_table_unchanged (self : FeatureEngineer) (team_stats : Refs.loc)
    (σ : Refs.store) (df : DataFrame) :
  σ !! team_stats = Some df →
  match Refs.create_rolling_features self team_stats σ with
  | Refs.Returns result σ' =>
      σ' !! team_stats = Some df ∧
      (∀ l, is_Some (σ !! l) → σ' !! l = σ !! l) ∧
      σ !! result = None ∧ result ≠ team_stats ∧
      ∃ sm, create_rolling_features self df = Ok sm ∧ σ' !! result = Some sm
  | Refs.Raises e σ' =>
      σ' !! team_stats = Some df ∧
      (∀ l, is_Some (σ !! l) → σ' !! l = σ !! l) ∧
      create_rolling_features self df = Err e
  | Refs.Stuck => False
  end.
Proof.
  intros Hl.
  set (new := fresh (dom σ)).
  assert (σ !! new = None) as Hnew
    by (apply not_elem_of_dom; apply is_fresh).
  assert (new ≠ team_stats) as Hne by (intros ->; congruence).
  assert (Refs.create_rolling_features self team_stats σ =
          match Refs.for_each (Refs.smooth_column self new) rolling_cols
                  (<[new := sort_values_week df]> σ) with
          | Refs.Returns _ σ' => Refs.Returns new σ'
          | Refs.Raises e σ' => Refs.Raises e σ'
          | Refs.Stuck => Refs.Stuck
          end) as ->.
  { unfold Refs.create_rolling_features, Refs.sort_values_week, Refs.read,
      Refs.alloc, mbind, Refs.M_bind.
    rewrite Hl. done. }
  pose proof (for_each_add_rolling self new rolling_cols
                (<[new := sort_values_week df]> σ) (sort_values_week df)
                (lookup_insert_eq _ _ _)) as Hloop.
  destruct (Refs.for_each _ rolling_cols _) as [u σ'|e σ'|]; [| |done].
  - destruct Hloop as (sm & Hsm & ->).
    rewrite insert_insert_eq.
    split; [by rewrite lookup_insert_ne|]. split.
    { intros l [x Hx]. rewrite lookup_insert_ne; [done|]. congruence. }
    split; [done|]. split; [done|].
    exists sm. split; [done|]. by rewrite lookup_insert_eq.
  - destruct Hloop as (Herr & df' & ->). rewrite insert_insert_eq.
    split; [by rewrite lookup_insert_ne|]. split; [|done].
    intros l [x Hx]. rewrite lookup_insert_ne; [done|]. congruence.
Qed.


(** * The theorems at concrete inputs *)

Lemma no_leakage_witness :
  build_all_team_stats fetch_season engineer5 sample_schedule =
    Ok (built_stats fetch_season) ∧
  build_all_team_stats fetch_season_alt engineer5 sample_schedule =
    Ok (built_stats fetch_season_alt) ∧
  same_prior_weeks fetch_season fetch_season_alt game_week4 ∧
  game_features engineer5 (built_stats fetch_season) game_week4 =
  game_features engineer5 (built_stats fetch_season_alt) game_week4.
Proof.
  assert (build_all_team_stats fetch_season engineer5 sample_schedule =
          Ok (built_stats fetch_season)) as H1 by (vm_compute; reflexivity).
  assert (build_all_team_stats fetch_season_alt engineer5 sample_schedule =
          Ok (built_stats fetch_season_alt)) as H2 by (vm_compute; reflexivity).
  assert (same_prior_weeks fetch_season fetch_season_alt game_week4) as H3
    by (split; vm_compute; reflexivity).
  split; [exact H1|]. split; [exact H2|]. split; [exact H3|].
  exact (proj1 (no_leakage fetch_season fetch_season_alt engineer5
                  sample_schedule _ _ H1 H2) game_week4 H3).
Defined.

Lemma rolling_is_trailing_mean_witness :
  (0 < window_size engineer3 ∧ SEA_stats ≠ [] ∧
   weekly_stats SEA_stats = true ∧ sorted_by_week SEA_stats SEA_by_week ∧
   ∃ sm, create_rolling_features engineer3 SEA_stats = Ok sm ∧
     map week sm = [1; 2; 3; 4; 5] ∧
     (∃ row, sm !! 1%nat = Some row ∧
        vals row !! "points_rolling_3" = Some (Num (Qc_of_Z 22))) ∧
     (∃ row, sm !! 4%nat = Some row ∧
        vals row !! "points_rolling_3" = Some (Num (Q2Qc (76 # 3))) ∧
        vals row !! "epa_rolling_3" = Some (Num (Q2Qc (1 # 6))))) ∧
  (0 < window_size engineer5 ∧ SEA_three_weeks ≠ [] ∧
   weekly_stats SEA_three_weeks = true ∧
   sorted_by_week SEA_three_weeks SEA_three_by_week ∧
   Z.of_nat (length SEA_three_weeks) < window_size engineer5 ∧
   ∃ sm, create_rolling_features engineer5 SEA_three_weeks = Ok sm ∧
     map week sm = [1; 2; 3; 6] ∧
     (∃ row, sm !! 2%nat = Some row ∧
        vals row !! "points_rolling_5" = Some (Num (Q2Qc (61 # 3)))) ∧
     (∃ row, last sm = Some row ∧
        vals row !! "points_rolling_5" = Some (Num (Q2Qc (91 # 4))) ∧
        vals row !! "sacks_rolling_5" = Some (Num (Qc_of_Z 2)))).
Proof.
  split.
  - assert (0 < window_size engineer3) as H1 by reflexivity.
    assert (SEA_stats ≠ []) as H2 by discriminate.
    assert (weekly_stats SEA_stats = true) as H3 by (vm_compute; reflexivity).
    assert (sorted_by_week SEA_stats SEA_by_week) as H4.
    { assert (SEA_by_week = sort_values_week SEA_stats) as ->
        by (vm_compute; reflexivity).
      apply sort_values_week_sorted_by_week. }
    split; [exact H1|]. split; [exact H2|]. split; [exact H3|].
    split; [exact H4|].
    destruct (rolling_is_trailing_mean engineer3 SEA_stats SEA_by_week
                H1 H2 H3 H4) as (sm & Hsm & Hweeks & Hall & _).
    exists sm. split; [exact Hsm|]. split; [exact Hweeks|]. split.
    + destruct (Hall "points" 1%nat) as (row & Hrow & Hv);
        [compute_done|simpl; lia|].
      exists row. split; [exact Hrow|].
      etrans; [exact Hv|]. compute_done.
    + destruct (Hall "points" 4%nat) as (row & Hrow & Hv);
        [compute_done|simpl; lia|].
      destruct (Hall "epa" 4%nat) as (row' & Hrow' & Hv');
        [compute_done|simpl; lia|].
      assert (row' = row) as -> by congruence.
      exists row. split; [exact Hrow|]. split.
      * etrans; [exact Hv|]. compute_done.
      * etrans; [exact Hv'|]. compute_done.
  - assert (0 < window_size engineer5) as H1 by reflexivity.
    assert (SEA_three_weeks ≠ []) as H2 by (vm_compute; discriminate).
    assert (weekly_stats SEA_three_weeks = true) as H3
      by (vm_compute; reflexivity).
    assert (sorted_by_week SEA_three_weeks SEA_three_by_week) as H4.
    { assert (SEA_three_by_week = sort_values_week SEA_three_weeks) as ->
        by (vm_compute; reflexivity).
      apply sort_values_week_sorted_by_week. }
    assert (Z.of_nat (length SEA_three_weeks) < window_size engineer5) as H5
      by (vm_compute; reflexivity).
    split; [exact H1|]. split; [exact H2|]. split; [exact H3|].
    split; [exact H4|]. split; [exact H5|].
    destruct (rolling_is_trailing_mean engineer5 SEA_three_weeks
                SEA_three_by_week H1 H2 H3 H4)
      as (sm & Hsm & Hweeks & Hall & Hshort).
    exists sm. split; [exact Hsm|]. split; [exact Hweeks|]. split.
    + destruct (Hall "points" 2%nat) as (row & Hrow & Hv);
        [compute_done|vm_compute; lia|].
      exists row. split; [exact Hrow|].
      etrans; [exact Hv|]. compute_done.
    + destruct (Hshort H5 "points") as (row & Hrow & Hv); [compute_done|].
      destruct (Hshort H5 "sacks") as (row' & Hrow' & Hv'); [compute_done|].
      assert (row' = row) as -> by congruence.
      exists row. split; [exact Hrow|]. split.
      * etrans; [exact Hv|]. compute_done.
      * etrans; [exact Hv'|]. compute_done.
Defined.

Lemma matchup_row_formulas_witness :
  last SEA_smoothed = Some (last_row SEA_smoothed) ∧
  last NE_smoothed = Some (last_row NE_smoothed) ∧
  has_smoothed engineer5 (last_row SEA_smoothed) = true ∧
  has_smoothed engineer5 (last_row NE_smoothed) = true ∧
  ∃ row, create_matchup_features engineer5 SEA_smoothed NE_smoothed = Ok [row] ∧
    row !! "pts_diff" = Some (Num (Q2Qc (38 # 5))) ∧
    row !! "def_epa_diff" = Some (Num (Q2Qc (-47 # 250))) ∧
    row !! "pts_allowed_diff" = Some (Num (Qc_of_Z (-6))) ∧
    row !! "sacks_diff" = Some (Num (Q2Qc (14 # 5))) ∧
    row !! "net_pts_diff" = Some (Num (Q2Qc (53 # 5))).
Proof.
  assert (last SEA_smoothed = Some (last_row SEA_smoothed)) as H1
    by (vm_compute; reflexivity).
  assert (last NE_smoothed = Some (last_row NE_smoothed)) as H2
    by (vm_compute; reflexivity).
  assert (has_smoothed engineer5 (last_row SEA_smoothed) = true) as H3
    by (vm_compute; reflexivity).
  assert (has_smoothed engineer5 (last_row NE_smoothed) = true) as H4
    by (vm_compute; reflexivity).
  split; [exact H1|]. split; [exact H2|]. split; [exact H3|]. split; [exact H4|].
  destruct (matchup_row_formulas engineer5 SEA_smoothed NE_smoothed _ _
              H1 H2 H3 H4)
    as (row & Hrow & Hde & Hpa & Hsa & Hnet & Hpts & _).
  exists row. split; [exact Hrow|].
  rewrite Hpts, Hde, Hpa, Hsa, Hnet. repeat split; compute_done.
Defined.

Lemma matchup_swap_witness :
  last SEA_smoothed = Some (last_row SEA_smoothed) ∧
  last NE_smoothed = Some (last_row NE_smoothed) ∧
  has_smoothed engineer5 (last_row SEA_smoothed) = true ∧
  has_smoothed engineer5 (last_row NE_smoothed) = true ∧
  ∃ ab ba,
    create_matchup_features engineer5 SEA_smoothed NE_smoothed = Ok [ab] ∧
    create_matchup_features engineer5 NE_smoothed SEA_smoothed = Ok [ba] ∧
    (∀ d, d ∈ diff_fields →
       ∃ v, ab !! d = Some v ∧ ba !! d = Some (cell_neg v)) ∧
    (ab !! "t1_epa" = Some (Num (Q2Qc (3 # 20))) ∧
     ba !! "t2_epa" = Some (Num (Q2Qc (3 # 20)))) ∧
    (ab !! "t2_epa" = Some (Num (Qc_of_Z 0)) ∧
     ba !! "t1_epa" = Some (Num (Qc_of_Z 0))) ∧
    (ab !! "t1_success" = Some (Num (Q2Qc (1 # 2))) ∧
     ba !! "t2_success" = Some (Num (Q2Qc (1 # 2)))) ∧
    (ab !! "t2_success" = Some (Num (Q2Qc (209 # 500))) ∧
     ba !! "t1_success" = Some (Num (Q2Qc (209 # 500)))) ∧
    (ab !! "def_epa_diff" = Some (Num (Q2Qc (-47 # 250))) ∧
     ba !! "def_epa_diff" = Some (Num (Q2Qc (47 # 250)))) ∧
    (ab !! "pts_allowed_diff" = Some (Num (Qc_of_Z (-6))) ∧
     ba !! "pts_allowed_diff" = Some (Num (Qc_of_Z 6))) ∧
    (ab !! "sacks_diff" = Some (Num (Q2Qc (14 # 5))) ∧
     ba !! "sacks_diff" = Some (Num (Q2Qc (-14 # 5)))).
Proof.
  assert (last SEA_smoothed = Some (last_row SEA_smoothed)) as H1
    by (vm_compute; reflexivity).
  assert (last NE_smoothed = Some (last_row NE_smoothed)) as H2
    by (vm_compute; reflexivity).
  assert (has_smoothed engineer5 (last_row SEA_smoothed) = true) as H3
    by (vm_compute; reflexivity).
  assert (has_smoothed engineer5 (last_row NE_smoothed) = true) as H4
    by (vm_compute; reflexivity).
  split; [exact H1|]. split; [exact H2|]. split; [exact H3|]. split; [exact H4|].
  destruct (matchup_swap engineer5 SEA_smoothed NE_smoothed _ _ H1 H2 H3 H4)
    as (ab & ba & Hab & Hba & Hdiff & [E1 E1'] & [E2 E2'] & [S1 S1']
        & [S2 S2'] & [D1 D1'] & [P1 P1'] & [K1 K1']).
  exists ab, ba. split; [exact Hab|]. split; [exact Hba|].
  split; [exact Hdiff|].
  rewrite E1, E1', E2, E2', S1, S1', S2, S2', D1, D1', P1, P1', K1, K1'.
  repeat split; compute_done.
Defined.

Lemma labels_of_training_row_witness :
  (∃ row,
     prepare_training_data engineer5 (stats_with_home SEA_stats) [game_week6] =
       Ok [row] ∧
     row !! "home_win" = Some (Num (Qc_of_Z 1)) ∧
     row !! "point_diff" = Some (Num (Qc_of_Z 14))) ∧
  (∃ row,
     prepare_training_data engineer5 (stats_with_home SEA_stats) [game_tie] =
       Ok [row] ∧
     row !! "home_win" = Some (Num (Qc_of_Z 0)) ∧
     row !! "point_diff" = Some (Num (Qc_of_Z 0))).
Proof.
  split.
  - assert (prepare_training_data engineer5 (stats_with_home SEA_stats)
              [game_week6] =
            Ok (table_or_empty
                  (prepare_training_data engineer5 (stats_with_home SEA_stats)
                     [game_week6]))) as Hout by (vm_compute; reflexivity).
    destruct (proj1 (proj2 (labels_of_training_row engineer5
                              (stats_with_home SEA_stats))) game_week6 _ Hout)
      as (row & Hrow & Hwin & Hdiff).
    exists row. rewrite Hout, Hrow. split; [reflexivity|].
    split; [exact Hwin|exact Hdiff].
  - assert (prepare_training_data engineer5 (stats_with_home SEA_stats)
              [game_tie] =
            Ok (table_or_empty
                  (prepare_training_data engineer5 (stats_with_home SEA_stats)
                     [game_tie]))) as Hout by (vm_compute; reflexivity).
    destruct (proj1 (proj2 (labels_of_training_row engineer5
                              (stats_with_home SEA_stats))) game_tie _ Hout)
      as (row & Hrow & Hwin & Hdiff).
    exists row. rewrite Hout, Hrow. split; [reflexivity|].
    split; [exact Hwin|exact Hdiff].
Defined.

Lemma invalid_window_rejected_witness :
  (window_size (mkFeatureEngineer 0) ≤ 0 ∧
   has_raw_columns SEA_stats = true ∧
   create_rolling_features (mkFeatureEngineer 0) SEA_stats =
   Err (ValueError "min_periods must be <= window")) ∧
  (window_size (mkFeatureEngineer (-3)) ≤ 0 ∧
   create_rolling_features (mkFeatureEngineer (-3)) [] =
   Err (ValueError "min_periods must be <= window")) ∧
  (0 < window_size engineer5 ∧
   ∃ sm, create_rolling_features engineer5 SEA_stats = Ok sm ∧
         length sm = length SEA_stats).
Proof.
  assert (has_raw_columns SEA_stats = true) as Hraw by (vm_compute; reflexivity).
  assert (window_size (mkFeatureEngineer 0) ≤ 0) as H0 by (simpl; lia).
  assert (window_size (mkFeatureEngineer (-3)) ≤ 0) as H3 by (simpl; lia).
  assert (0 < window_size engineer5) as H5 by reflexivity.
  split; [|split].
  - split; [exact H0|]. split; [exact Hraw|].
    exact (proj1 (proj2 (invalid_window_rejected (mkFeatureEngineer 0) SEA_stats))
             H0 Hraw).
  - split; [exact H3|].
    exact (proj1 (proj2 (invalid_window_rejected (mkFeatureEngineer (-3)) []))
             H3 eq_refl).
  - split; [exact H5|].
    exact (proj2 (proj2 (invalid_window_rejected engineer5 SEA_stats)) H5 Hraw).
Defined.

Lemma caller_table_unchanged_witness :
  sample_store !! 1%nat = Some SEA_stats ∧
  match Refs.create_rolling_features engineer5 1%nat sample_store with
  | Refs.Returns result σ' =>
      σ' !! 1%nat = Some SEA_stats ∧
      (∀ l, is_Some (sample_store !! l) → σ' !! l = sample_store !! l) ∧
      sample_store !! result = None ∧ result ≠ 1%nat ∧
      ∃ sm, create_rolling_features engineer5 SEA_stats = Ok sm ∧
            σ' !! result = Some sm
  | Refs.Raises e σ' =>
      σ' !! 1%nat = Some SEA_stats ∧
      (∀ l, is_Some (sample_store !! l) → σ' !! l = sample_store !! l) ∧
      create_rolling_features engineer5 SEA_stats = Err e
  | Refs.Stuck => False
  end.
Proof.
  assert (sample_store !! 1%nat = Some SEA_stats) as H by reflexivity.
  split; [exact H|].
  exact (caller_table_unchanged engineer5 1%nat sample_store SEA_stats H).
Defined.

(** * Worked examples *)

(** The end-to-end scenario: weekly points 20, 24, 17, 28, 31 against
    14, 10, 21, 17, 20 with window 5 give smoothed points 24 and 16.4 in
    week 5, and [pts_diff] = 7.6. *)
Example end_to_end_scenario :
  vals (last_row SEA_smoothed) !! "points_rolling_5" = Some (Num (Qc_of_Z 24)) ∧
  vals (last_row NE_smoothed) !! "points_rolling_5" = Some (Num (Q2Qc (82 # 5))) ∧
  (λ f, f !! "pts_diff") <$>
    table_or_empty (create_matchup_features engineer5 SEA_smoothed NE_smoothed) =
  [Some (Num (Q2Qc (76 # 10)))].
Proof. repeat split; compute_done. Qed.

(** The smoother sorts by week: the rows come back in weeks 1 to 5. *)
Example smoothed_in_week_order : map week SEA_smoothed = [1; 2; 3; 4; 5].
Proof. by vm_compute. Qed.

(** On the store of the examples the call returns a new reference, and the
    caller's table still lacks the smoothed columns. *)
Example smoother_allocates :
  match Refs.create_rolling_features engineer5 1%nat sample_store with
  | Refs.Returns result σ' =>
      result = 2%nat ∧ σ' !! 1%nat = Some SEA_stats ∧
      σ' !! 2%nat = Some SEA_smoothed ∧
      Forall (λ r, vals r !! "points_rolling_5" = None) SEA_stats
  | _ => False
  end.
Proof. vm_compute. repeat split; repeat constructor. Qed.

(** A raw cell that is [NaN] is left out of the mean, and a window with no
    number in it gives [NaN]. *)
Example rolling_mean_skips_NaN :
  rolling_mean 2 1 [NaN; Num (Qc_of_Z 4); NaN; Num (Qc_of_Z 2)] =
  Ok [NaN; Num (Qc_of_Z 4); Num (Qc_of_Z 4); Num (Qc_of_Z 2)].
Proof. compute_done. Qed.

(** With rows to concatenate the training table of the example season has
    one row per eligible regular-season game, in schedule order. *)
Example training_table_of_season :
  (λ f, f !! "point_diff") <$>
    table_or_empty (training_df fetch_season engineer5 sample_schedule) =
  [Some (Num (Qc_of_Z 14)); Some (Num (Qc_of_Z 0))].
Proof. compute_done. Qed.


(** * Further properties of the code *)

(** ** The smoothed table *)

Lemma insert_by_week_head (r : Row) (df : DataFrame) :
  Forall (Z.le (week r)) (map week df) → insert_by_week r df = r :: df.
Proof.
  destruct df as [|r' df]; simpl; [done|].
  intros [Hle _]%Forall_cons. by destruct (Z.leb_spec (week r) (week r')); [|lia].
Qed.

Lemma sort_values_week_sorted_id (df : DataFrame) :
  ascending (map week df) → sort_values_week df = df.
Proof.
  induction df as [|r df IH]; simpl; [done|].
  intros [Hle Hs]. rewrite IH by done. by apply insert_by_week_head.
Qed.

Lemma ascending_perm_eq (l1 l2 : DataFrame) :
  l1 ≡ₚ l2 → NoDup (map week l1) →
  ascending (map week l1) → ascending (map week l2) → l1 = l2.
Proof.
  revert l2. induction l1 as [|a l1 IH]; intros l2 Hperm Hnd Hs1 Hs2.
  { by apply Permutation_nil_l in Hperm. }
  destruct l2 as [|b l2]; [by apply Permutation_nil_r in Hperm|].
  simpl in *. destruct Hs1 as [Hle1 Hs1], Hs2 as [Hle2 Hs2].
  apply NoDup_cons in Hnd as [Hna Hnd].
  assert (a = b) as <-.
  { assert (a ∈ b :: l2) as Ha by (rewrite <- Hperm; left).
    assert (b ∈ a :: l1) as Hb by (rewrite Hperm; left).
    apply elem_of_cons in Ha as [Ha|Ha]; [done|].
    apply elem_of_cons in Hb as [Hb|Hb]; [done|].
    exfalso. apply Hna.
    assert (week b ≤ week a)
      by (rewrite Forall_forall in Hle2; apply Hle2, list_elem_of_fmap; eauto).
    assert (week a ≤ week b)
      by (rewrite Forall_forall in Hle1; apply Hle1, list_elem_of_fmap; eauto).
    replace (week a) with (week b) by lia.
    apply list_elem_of_fmap. eauto. }
  f_equal. apply IH; try done. by apply Permutation_cons_inv in Hperm.
Qed.

Lemma smooth_getitem (self : FeatureEngineer) (cols : list string)
    (df df' : DataFrame) (c : string) :
  cols ⊆ rolling_cols → c ∈ rolling_cols →
  foldM (add_rolling self) df cols = Ok df' → getitem c df' = getitem c df.
Proof.
  revert df. induction cols as [|c0 cols IH]; intros df Hsub Hc; simpl.
  - by intros [= ->].
  - intros (df1 & H1 & H2)%bind_Ok.
    rewrite (IH df1); [|by intros x Hx; apply Hsub; right|done..].
    eapply add_rolling_getitem; [apply Hsub; left|done..].
Qed.

Lemma rolling_mean_window_positive (window : Z) (s r : Series) :
  rolling_mean window 1 s = Ok r → 1 ≤ window.
Proof.
  unfold rolling_mean. destruct (Z.ltb_spec 1 0); [done|].
  by destruct (Z.ltb_spec window 1).
Qed.

Lemma create_rolling_features_window (self : FeatureEngineer) (df sm : DataFrame) :
  create_rolling_features self df = Ok sm → 1 ≤ window_size self.
Proof.
  rewrite create_rolling_features_first.
  intros (df1 & (s & r & _ & Hr & _)%add_rolling_Ok & _)%bind_Ok.
  by eapply rolling_mean_window_positive.
Qed.

Lemma setitem_id (name : string) (s : Series) (df : DataFrame) :
  Forall2 (λ r c, vals r !! name = Some c) df s → setitem name s df = df.
Proof.
  unfold setitem. induction 1 as [|[w m] c df s Hc _ IH]; simpl; [done|].
  simpl in Hc. by rewrite insert_id, IH.
Qed.

(** X1: the table the smoother returns is in ascending week order and holds
    the weeks of its argument, each as often as the argument does. *)
Theorem smoothed_table_sorted (self : FeatureEngineer) (df sm : DataFrame) :
  create_rolling_features self df = Ok sm →
  ascending (map week sm) ∧ map week sm ≡ₚ map week df ∧
  length sm = length df.
Proof.
  intros H. rewrite (create_rolling_features_weeks _ _ _ H).
  split; [apply sort_values_week_ascending|].
  split; [by rewrite sort_values_week_perm|].
  by eapply create_rolling_features_length.
Qed.

(** X2: the smoother only adds its seven columns: row [i] of the result is
    row [i] of the sorted argument with the same week, the same cell in
    every column that is not one of the seven smoothed names, and the seven
    smoothed names added to its columns. *)
Theorem smoothed_table_keeps_columns (self : FeatureEngineer)
    (df sm : DataFrame) (i : nat) (r' : Row) :
  create_rolling_features self df = Ok sm → sm !! i = Some r' →
  ∃ r, sort_values_week df !! i = Some r ∧ week r' = week r ∧
       (∀ k, k ∉ smoothed_names self → vals r' !! k = vals r !! k) ∧
       dom (vals r') = dom (vals r) ∪ smoothed_names self.
Proof.
  intros H Hi. pose proof H as Hfold. unfold create_rolling_features in Hfold.
  destruct (smooth_preserves _ _ _ _ _ _ Hfold Hi) as (r & Hr & Hkeep).
  exists r. split; [done|].
  assert (∀ k, k ∉ smoothed_names self → vals r' !! k = vals r !! k) as Hkeep'.
  { intros k Hk. apply Hkeep. intros Hin. apply Hk.
    unfold smoothed_names. by apply elem_of_list_to_set. }
  split; [|split; [done|]].
  - pose proof (create_rolling_features_weeks _ _ _ H) as Hw.
    assert (map week sm !! i = map week (sort_values_week df) !! i) as Hwi
      by by rewrite Hw.
    rewrite !list_lookup_fmap, Hi, Hr in Hwi. by injection Hwi.
  - apply set_eq. intros k. rewrite elem_of_union, !elem_of_dom.
    destruct (decide (k ∈ smoothed_names self)) as [Hk|Hk].
    + split; [by right|]. intros _.
      unfold smoothed_names in Hk.
      apply elem_of_list_to_set, list_elem_of_fmap in Hk as (c & -> & Hc).
      destruct (create_rolling_features_value _ _ _ _ _ _ H Hc Hi)
        as (s & _ & ->).
      by eexists.
    + rewrite (Hkeep' k Hk). split; [by left|]. by intros [?|?].
Qed.

(** X3: smoothing a table that the same engineer has smoothed returns it
    unchanged. *)
Theorem smoothing_twice (self : FeatureEngineer) (df sm : DataFrame) :
  create_rolling_features self df = Ok sm →
  create_rolling_features self sm = Ok sm.
Proof.
  intros H. pose proof (create_rolling_features_window _ _ _ H) as Hw.
  pose proof H as Hfold. unfold create_rolling_features in Hfold.
  unfold create_rolling_features.
  rewrite sort_values_week_sorted_id
    by (rewrite (create_rolling_features_weeks _ _ _ H);
        apply sort_values_week_ascending).
  assert (∀ c, c ∈ rolling_cols → add_rolling self sm c = Ok sm) as Hstep.
  { intros c Hc. apply add_rolling_Ok.
    assert (∃ s, getitem c (sort_values_week df) = Ok s) as [s Hs].
    { destruct sm as [|r0 sm0] eqn:Hsm.
      - apply smooth_length in Hfold. simpl in Hfold.
        destruct (sort_values_week df); [by exists []|done].
      - destruct (create_rolling_features_value self df (r0 :: sm0) c 0 r0 H Hc)
          as (s & Hs & _); [done|]. by exists s. }
    exists s, (map (λ i, window_mean 1
                 (window_at (Z.to_nat (window_size self)) i s))
                 (seq 0 (length s))).
    split; [by rewrite (smooth_getitem _ _ _ _ c ltac:(by intros x Hx) Hc Hfold)|].
    split; [by apply rolling_mean_Ok|].
    symmetry. apply setitem_id. apply Forall2_same_length_lookup. split.
    - rewrite length_map, length_seq. apply getitem_length in Hs.
      rewrite (smooth_length _ _ _ _ Hfold). lia.
    - intros i r v Hr Hv.
      destruct (create_rolling_features_value _ _ _ _ _ _ H Hc Hr)
        as (s' & Hs' & ->).
      assert (s' = s) as -> by congruence.
      rewrite list_lookup_fmap in Hv.
      destruct (seq 0 (length s) !! i) as [j|] eqn:Hj; [|done].
      apply lookup_seq in Hj as [-> _]. simpl in Hv. by injection Hv as <-. }
  clear -Hstep. induction rolling_cols as [|c cols IH]; simpl; [done|].
  rewrite Hstep by left. rewrite bind_Ok_l. apply IH.
  intros c' Hc'. apply Hstep. by right.
Qed.

(** X4: with pairwise different weeks the order in which the rows are handed
    over does not matter: two arguments with the same rows give the same
    result. *)
Theorem smoothing_ignores_row_order (self : FeatureEngineer) (df df' : DataFrame) :
  df ≡ₚ df' → NoDup (map week df) →
  create_rolling_features self df = create_rolling_features self df'.
Proof.
  intros Hperm Hnd. unfold create_rolling_features.
  replace (sort_values_week df') with (sort_values_week df); [done|].
  apply ascending_perm_eq.
  - by rewrite !sort_values_week_perm.
  - by rewrite sort_values_week_perm.
  - apply sort_values_week_ascending.
  - apply sort_values_week_ascending.
Qed.

(** X5: smoothing the whole table and then keeping the rows before week [w]
    gives what smoothing only the rows before week [w] gives: no smoothed
    value of a week depends on a later week. *)
Theorem smoothing_commutes_with_restriction (self : FeatureEngineer)
    (df sm : DataFrame) (w : Z) :
  create_rolling_features self df = Ok sm →
  create_rolling_features self (before_week w df) = Ok (before_week w sm).
Proof. apply create_rolling_features_before_week. Qed.

(** ** How the smoother fails *)

Lemma getitem_Err (c : string) (df : DataFrame) (e : PyError) :
  getitem c df = Err e → e = KeyError c ∧ ∃ r, r ∈ df ∧ vals r !! c = None.
Proof.
  unfold getitem, row_get. induction df as [|r df IH]; simpl; [done|].
  destruct (vals r !! c) as [v|] eqn:Hv; simpl.
  - destruct (mapM _ df) as [s|e']; simpl; [done|].
    intros [= <-]. destruct (IH eq_refl) as (-> & r0 & Hr0 & Hnone).
    split; [done|]. exists r0. split; [by right|done].
  - intros [= <-]. split; [done|]. exists r. split; [by left|done].
Qed.

Lemma rolling_mean_Err_inv (window : Z) (s : Series) (e : PyError) :
  rolling_mean window 1 s = Err e →
  window ≤ 0 ∧ e = ValueError "min_periods must be <= window".
Proof.
  unfold rolling_mean. destruct (Z.ltb_spec 1 0); [lia|].
  destruct (Z.ltb_spec window 1); [intros [= <-]; split; [lia|done]|].
  by destruct (Z.ltb_spec window 0); [lia|].
Qed.

Lemma setitem_elem_of (name : string) (s : Series) (df : DataFrame) (r' : Row) :
  r' ∈ setitem name s df →
  ∃ r c, r ∈ df ∧ r' = mkRow (week r) (<[name := c]> (vals r)).
Proof.
  intros (i & Hi)%list_elem_of_lookup_1.
  apply setitem_lookup in Hi as (r & c & Hr & _ & ->).
  exists r, c. split; [by eapply list_elem_of_lookup_2|done].
Qed.

Lemma smooth_Err (self : FeatureEngineer) (cols : list string)
    (df : DataFrame) (e : PyError) :
  cols ⊆ rolling_cols → foldM (add_rolling self) df cols = Err e →
  (∃ c r, c ∈ cols ∧ e = KeyError c ∧ r ∈ df ∧ vals r !! c = None) ∨
  (window_size self ≤ 0 ∧ e = ValueError "min_periods must be <= window").
Proof.
  revert df. induction cols as [|c cols IH]; intros df Hsub; simpl; [done|].
  assert (c ∈ rolling_cols) as Hc by (apply Hsub; left).
  assert (cols ⊆ rolling_cols) as Hsub' by (intros x Hx; apply Hsub; by right).
  destruct (add_rolling self df c) as [df1|e1] eqn:H1.
  - rewrite bind_Ok_l. intros Hrest.
    destruct (IH df1 Hsub' Hrest) as [(c' & r1 & Hc' & -> & Hr1 & Hnone)|?];
      [left|by right].
    apply add_rolling_Ok in H1 as (s & x & _ & _ & ->).
    apply setitem_elem_of in Hr1 as (r & v & Hr & ->). simpl in Hnone.
    exists c', r. split; [by right|]. split; [done|]. split; [done|].
    rewrite lookup_insert_ne in Hnone; [done|].
    apply rolling_name_raw; [done|by apply Hsub'].
  - rewrite bind_Err_l. intros [= <-]. unfold add_rolling in H1.
    destruct (getitem c df) as [s|e0] eqn:Hs.
    + rewrite bind_Ok_l in H1.
      destruct (rolling_mean (window_size self) 1 s) as [x|e0] eqn:Hx; [done|].
      rewrite bind_Err_l in H1. injection H1 as <-.
      right. by eapply rolling_mean_Err_inv.
    + rewrite bind_Err_l in H1. injection H1 as <-.
      apply getitem_Err in Hs as (-> & r & Hr & Hnone).
      left. exists c, r. split; [by left|done].
Qed.

Lemma smooth_reads (self : FeatureEngineer) (cols : list string)
    (df df' : DataFrame) (c : string) :
  cols ⊆ rolling_cols → c ∈ cols →
  foldM (add_rolling self) df cols = Ok df' → ∃ s, getitem c df = Ok s.
Proof.
  revert df. induction cols as [|c0 cols IH]; intros df Hsub Hc; simpl.
  { by apply elem_of_nil in Hc. }
  intros (df1 & H1 & H2)%bind_Ok.
  assert (cols ⊆ rolling_cols) as Hsub' by (intros x Hx; apply Hsub; by right).
  apply elem_of_cons in Hc as [->|Hc].
  - apply add_rolling_Ok in H1 as (s & _ & Hs & _). by exists s.
  - destruct (IH df1 Hsub' Hc H2) as [s Hs]. exists s.
    rewrite <- Hs. symmetry.
    eapply add_rolling_getitem; [apply Hsub; left|by apply Hsub'|exact H1].
Qed.

(** X7: how a call of the smoother ends on a table that has a [week]
    column and at least one row.  It returns only with a window of at least
    1 and when all rows have the seven raw columns; a KeyError names a raw
    column that some row lacks; a ValueError is that of a window <= 0; it
    never raises IndexError.  (A table without a [week] column, and an empty
    table without the raw columns, are not tables of this model.) *)
Theorem smoother_outcomes (self : FeatureEngineer) (df : DataFrame) :
  df ≠ [] →
  match create_rolling_features self df with
  | Ok sm => 1 ≤ window_size self ∧ raw_present df
  | Err (KeyError c) =>
      c ∈ rolling_cols ∧ ∃ r, r ∈ df ∧ vals r !! c = None
  | Err (ValueError msg) =>
      window_size self ≤ 0 ∧ msg = "min_periods must be <= window"
  | Err IndexError => False
  end.
Proof.
  intros _.
  destruct (create_rolling_features self df) as [sm|e] eqn:H.
  - split; [by eapply create_rolling_features_window|].
    unfold create_rolling_features in H.
    assert (raw_present (sort_values_week df)) as Hsorted.
    { apply Forall_forall. intros r Hr c Hc.
      destruct (smooth_reads self rolling_cols _ _ c ltac:(by intros x Hx) Hc H)
        as [s Hs].
      apply getitem_Ok in Hs. apply list_elem_of_lookup_1 in Hr as [i Hi].
      destruct (Forall2_lookup_l _ _ _ _ _ Hs Hi) as (v & _ & Hv). by exists v. }
    unfold raw_present in *. by rewrite sort_values_week_perm in Hsorted.
  - unfold create_rolling_features in H.
    apply smooth_Err in H; [|by intros x Hx].
    destruct H as [(c & r & Hc & -> & Hr & Hnone)|[Hw ->]]; [|done].
    split; [done|]. exists r. split; [|done].
    by rewrite sort_values_week_perm in Hr.
Qed.

(** ** The columns of the feature rows *)

Lemma create_matchup_features_dom (self : FeatureEngineer)
    (team1 team2 : DataFrame) (f : FeatureFrame) :
  create_matchup_features self team1 team2 = Ok f →
  ∃ row, f = [row] ∧ dom row = feature_names.
Proof.
  unfold create_matchup_features. intros H.
  repeat (apply bind_Ok in H as (? & _ & H)).
  injection H as <-. eexists. split; [reflexivity|].
  rewrite !dom_insert_L, dom_empty_L. unfold feature_names. simpl.
  set_solver.
Qed.

Lemma game_features_dom (self : FeatureEngineer)
    (all_team_stats : gmap string DataFrame) (game : ScheduledGame)
    (features : FeatureFrame) :
  game_features self all_team_stats game = Ok (Some features) →
  ∃ row, features = [row] ∧ dom row = feature_names ∪ label_names.
Proof.
  unfold game_features.
  intros (home & _ & (away & _ & H)%bind_Ok)%bind_Ok.
  destruct (_ || _)%nat; [done|].
  apply bind_Ok in H as (f & Hf & [= <-]).
  apply create_matchup_features_dom in Hf as (row & -> & Hdom).
  eexists. split; [reflexivity|].
  rewrite !dom_insert_L, Hdom. unfold label_names. set_solver.
Qed.

Lemma training_data_dom (self : FeatureEngineer)
    (all_team_stats : gmap string DataFrame) (games : list ScheduledGame)
    (rows : list FeatureFrame) :
  training_data self all_team_stats games = Ok rows →
  Forall (λ row, dom row = feature_names ∪ label_names) (concat rows).
Proof.
  revert rows. induction games as [|g games IH]; intros rows.
  - intros [= <-]. constructor.
  - rewrite training_data_cons.
    destruct (decide (game_type g = "REG")) as [Hreg|Hreg]; [|apply IH].
    destruct (game_features self all_team_stats g) as [[f|]|err] eqn:Hf;
      [| |done]; rewrite bind_Ok_l;
      (destruct (training_data self all_team_stats games) as [rest|]; [|done]);
      intros [= <-]; [|by apply IH].
    apply game_features_dom in Hf as (row & -> & Hdom).
    simpl. constructor; [done|by apply IH].
Qed.

(** X8: the row the builder returns has exactly the twelve feature columns,
    every row of the training table has exactly these twelve and the two
    labels, and dropping the labels from a training row leaves the columns
    of a live feature row. *)
Theorem feature_columns (self : FeatureEngineer) :
  (∀ team1 team2 f,
     create_matchup_features self team1 team2 = Ok f →
     ∃ row, f = [row] ∧ dom row = feature_names) ∧
  (∀ all_team_stats games out,
     prepare_training_data self all_team_stats games = Ok out →
     Forall (λ row, dom row = feature_names ∪ label_names ∧
                    dom row ∖ label_names = feature_names) out).
Proof.
  split; [apply create_matchup_features_dom|].
  intros ats games out. unfold prepare_training_data.
  destruct (training_data self ats games) as [rows|] eqn:Hrows; [|done].
  rewrite bind_Ok_l. destruct rows as [|f rows]; [done|].
  intros [= <-]. apply training_data_dom in Hrows.
  eapply Forall_impl; [exact Hrows|]. simpl. intros row ->.
  split; [done|]. unfold feature_names, label_names. set_solver.
Qed.

(** ** Two engineers with different windows *)

Lemma rolling_name_other_window (self1 self2 : FeatureEngineer) (c c' : string) :
  c ∈ rolling_cols → c' ∈ rolling_cols →
  window_size self1 ≠ window_size self2 →
  rolling_name self1 c ≠ rolling_name self2 c'.
Proof.
  intros Hc Hc' Hw. unfold rolling_name.
  each_col Hc; each_col Hc'; intros Heq; try discriminate;
    apply Hw, (inj pretty); revert Heq;
    generalize (pretty (window_size self1)), (pretty (window_size self2));
    intros s1 s2; cbv [String.append]; congruence.
Qed.

(** X9: the smoothed columns carry the window in their names, so a builder
    with another window does not find them: on a non-empty table smoothed
    with one window, whose raw rows had no smoothed points column of the
    other window, it raises KeyError for that column. *)
Theorem matchup_with_other_window (self1 self2 : FeatureEngineer)
    (df sm team2 : DataFrame) :
  create_rolling_features self1 df = Ok sm → df ≠ [] → team2 ≠ [] →
  window_size self1 ≠ window_size self2 →
  Forall (λ r, vals r !! rolling_name self2 "points" = None) df →
  create_matchup_features self2 sm team2 =
  Err (KeyError (rolling_name self2 "points")).
Proof.
  intros H Hdf Ht2 Hw Hraw.
  pose proof (create_rolling_features_length _ _ _ H) as Hlen.
  destruct (last sm) as [r'|] eqn:Hlast.
  2: { apply last_None in Hlast. subst sm. by destruct df. }
  destruct (last team2) as [t2|] eqn:Hlast2; [|by apply last_None in Hlast2].
  assert (vals r' !! rolling_name self2 "points" = None) as Hnone.
  { rewrite last_lookup in Hlast. pose proof H as Hfold.
    unfold create_rolling_features in Hfold.
    destruct (smooth_preserves _ _ _ _ _ _ Hfold Hlast) as (r & Hr & Hkeep).
    rewrite Hkeep.
    - rewrite Forall_forall in Hraw. apply Hraw.
      rewrite <- (sort_values_week_perm df). by eapply list_elem_of_lookup_2.
    - intros (c & Heq & Hc)%list_elem_of_fmap. symmetry in Heq. revert Heq.
      apply rolling_name_other_window; [done|compute_done|done]. }
  unfold create_matchup_features, iloc_last, diff_of, row_get.
  by rewrite Hlast, Hlast2, !bind_Ok_l, Hnone.
Qed.

(** ** How the assembler fails and what it returns *)

Lemma prepare_training_data_split (self : FeatureEngineer)
    (all_team_stats : gmap string DataFrame)
    (earlier later : list ScheduledGame) (game : ScheduledGame)
    (rows : list FeatureFrame) (e : PyError) :
  training_data self all_team_stats earlier = Ok rows →
  game_type game = "REG" →
  game_features self all_team_stats game = Err e →
  prepare_training_data self all_team_stats (earlier ++ game :: later) = Err e.
Proof.
  intros Hrows Hreg He. unfold prepare_training_data.
  rewrite training_data_app, Hrows, bind_Ok_l, training_data_cons.
  destruct (decide _) as [_|?]; [|done]. by rewrite He.
Qed.

(** X10: a regular-season game with a team that is not a key of the
    dictionary makes the assembler raise KeyError for that team (the home
    team is looked up first), whatever comes later in the schedule, provided
    the games before it went through. *)
Theorem missing_team_raises (self : FeatureEngineer)
    (all_team_stats : gmap string DataFrame)
    (earlier later : list ScheduledGame) (game : ScheduledGame)
    (rows : list FeatureFrame) :
  training_data self all_team_stats earlier = Ok rows →
  game_type game = "REG" →
  (all_team_stats !! home_team game = None →
   prepare_training_data self all_team_stats (earlier ++ game :: later) =
   Err (KeyError (home_team game))) ∧
  (is_Some (all_team_stats !! home_team game) →
   all_team_stats !! away_team game = None →
   prepare_training_data self all_team_stats (earlier ++ game :: later) =
   Err (KeyError (away_team game))).
Proof.
  intros Hrows Hreg. split.
  - intros Hnone. eapply prepare_training_data_split; [done..|].
    unfold game_features, dict_get. by rewrite Hnone.
  - intros [home Hhome] Hnone. eapply prepare_training_data_split; [done..|].
    unfold game_features, dict_get. by rewrite Hhome, bind_Ok_l, Hnone.
Qed.

Lemma training_data_frames (self : FeatureEngineer)
    (all_team_stats : gmap string DataFrame) (games : list ScheduledGame)
    (rows : list FeatureFrame) :
  training_data self all_team_stats games = Ok rows →
  Forall (λ f, length f = 1%nat) rows ∧
  length rows = length (filter (λ g, adds_row self all_team_stats g = true) games).
Proof.
  intros H%training_data_labels. split.
  - apply Forall_forall. intros f (i & Hi)%list_elem_of_lookup_1.
    destruct (Forall2_lookup_r _ _ _ _ _ H Hi) as (g & _ & row & -> & _). done.
  - symmetry. by eapply Forall2_length.
Qed.

Lemma concat_singletons_length {A} (frames : list (list A)) :
  Forall (λ f, length f = 1%nat) frames → length (concat frames) = length frames.
Proof. induction 1 as [|f frames Hf _ IH]; simpl; [done|]. rewrite length_app. lia. Qed.

(** X11: when the assembler returns, its table is never empty: it has one
    row for each regular-season game whose pass appends one, so at most one
    row per regular-season game of the schedule. *)
Theorem training_table_size (self : FeatureEngineer)
    (all_team_stats : gmap string DataFrame) (games : list ScheduledGame)
    (out : FeatureFrame) :
  prepare_training_data self all_team_stats games = Ok out →
  out ≠ [] ∧
  length out =
    length (filter (λ g, adds_row self all_team_stats g = true) games) ∧
  (length out ≤ length (filter (λ g, game_type g = "REG") games))%nat.
Proof.
  unfold prepare_training_data.
  destruct (training_data self all_team_stats games) as [rows|] eqn:Hrows; [|done].
  rewrite bind_Ok_l. destruct rows as [|f rows]; [done|].
  intros [= <-]. destruct (training_data_frames _ _ _ _ Hrows) as [Hone Hlen].
  assert (length (concat (f :: rows)) = length (f :: rows)) as Hcat
    by by apply concat_singletons_length.
  change (concat (f :: rows)) with (f ++ concat rows) in Hcat.
  split; [|split].
  - intros Hnil. rewrite Hnil in Hcat. done.
  - by rewrite Hcat.
  - rewrite Hcat, Hlen. clear. induction games as [|g games IH]; [done|].
    rewrite !filter_cons. destruct (decide (game_type g = "REG")) as [Hreg|Hreg].
    + destruct (decide _); simpl; lia.
    + destruct (decide _) as [Hadd|_]; [|done].
      apply adds_row_true in Hadd as [? _]. done.
Qed.

Lemma adds_row_eligible (self : FeatureEngineer)
    (all_team_stats : gmap string DataFrame) (game : ScheduledGame)
    (home away : DataFrame) :
  all_team_stats !! home_team game = Some home →
  all_team_stats !! away_team game = Some away →
  Forall (λ r, has_smoothed self r = true) home →
  Forall (λ r, has_smoothed self r = true) away →
  (∃ o, game_features self all_team_stats game = Ok o) ∧
  adds_row self all_team_stats game = eligible all_team_stats game.
Proof.
  intros Hh Ha Hsh Hsa. unfold adds_row, eligible. rewrite Hh, Ha.
  change (default [] (Some home)) with home.
  change (default [] (Some away)) with away.
  destruct (game_features_smoothed self all_team_stats game home away
              Hh Ha Hsh Hsa) as [(H1 & H2 & row & ->)|(Hlt & ->)].
  - split; [by eexists|].
    apply Nat.leb_le in H1, H2. rewrite H1, H2.
    by destruct (bool_decide _).
  - split; [by eexists|]. rewrite andb_false_r. symmetry.
    rewrite <- andb_assoc. apply andb_false_iff. right.
    apply andb_false_iff. destruct Hlt as [Hlt|Hlt]; [left|right];
      apply Nat.leb_gt; lia.
Qed.

(** X12: when every table of the dictionary is smoothed by this engineer
    and both teams of every regular-season game are keys of the dictionary,
    the loop raises nothing and appends one one-row table per eligible game;
    the assembler then returns as many rows as there are eligible games, and
    its only exception is the ValueError of a schedule without any. *)
Theorem assembler_on_smoothed_tables (self : FeatureEngineer)
    (all_team_stats : gmap string DataFrame) (games : list ScheduledGame) :
  (∀ team sm, all_team_stats !! team = Some sm →
     Forall (λ r, has_smoothed self r = true) sm) →
  (∀ g, g ∈ games → game_type g = "REG" →
     is_Some (all_team_stats !! home_team g) ∧
     is_Some (all_team_stats !! away_team g)) →
  let n := length (filter (λ g, eligible all_team_stats g = true) games) in
  (∃ rows, training_data self all_team_stats games = Ok rows ∧
           length rows = n ∧ Forall (λ f, length f = 1%nat) rows) ∧
  match prepare_training_data self all_team_stats games with
  | Ok out => length out = n ∧ (0 < n)%nat
  | Err e => e = ValueError "No objects to concatenate" ∧ n = 0%nat
  end.
Proof.
  intros Hsm Hkeys n.
  assert (∃ rows, training_data self all_team_stats games = Ok rows ∧
            length rows = n ∧ Forall (λ f, length f = 1%nat) rows)
    as (rows & Hrows & Hlen & Hone).
  { subst n. induction games as [|g games IH].
    - exists []. by repeat split.
    - destruct IH as (rest & Hrest & Hlen & Hone).
      { intros g' Hg'. apply Hkeys. by right. }
      rewrite training_data_cons, filter_cons.
      destruct (decide (game_type g = "REG")) as [Hreg|Hreg].
      + destruct (Hkeys g ltac:(by left) Hreg) as [[home Hh] [away Ha]].
        destruct (adds_row_eligible self all_team_stats g home away Hh Ha
                    (Hsm _ _ Hh) (Hsm _ _ Ha)) as [[o Ho] Hadd].
        rewrite Ho, bind_Ok_l, Hrest, bind_Ok_l. rewrite <- Hadd.
        unfold adds_row. rewrite (bool_decide_eq_true_2 _ Hreg), Ho. simpl.
        destruct o as [f|].
        * apply game_features_labels in Ho as (row & -> & _).
          destruct (decide _) as [_|?]; [|done].
          exists ([row] :: rest). split; [done|].
          split; [simpl; by rewrite Hlen|by constructor].
        * destruct (decide _) as [?|_]; [done|]. by exists rest.
      + assert (eligible all_team_stats g = false) as ->.
        { unfold eligible. by rewrite (bool_decide_eq_false_2 _ Hreg). }
        destruct (decide _) as [?|_]; [done|]. by exists rest. }
  split; [by exists rows|].
  unfold prepare_training_data. rewrite Hrows, bind_Ok_l.
  destruct rows as [|f rows]; simpl in *; [done|].
  change (f ++ concat rows) with (concat (f :: rows)).
  rewrite concat_singletons_length by done. simpl. split; [done|lia].
Qed.

(** ** The dictionary [main] builds *)

Lemma unique_elem_of (x : string) (l : list string) : x ∈ unique l ↔ x ∈ l.
Proof.
  induction l as [|y l IH]; simpl; [done|].
  rewrite !elem_of_cons, list_elem_of_filter, IH. split.
  - intros [->|[_ H]]; [by left|by right].
  - intros [->|H]; [by left|].
    destruct (decide (x = y)) as [->|Hne]; [by left|by right].
Qed.

(** X13: the dictionary [main] hands to the assembler has exactly the home
    teams of the schedule as keys, and the table under a key is that team's
    fetched table smoothed over the whole season. *)
Theorem built_dictionary (fetch : string → DataFrame)
    (engineer : FeatureEngineer) (schedules : list ScheduledGame)
    (all_team_stats : gmap string DataFrame) :
  build_all_team_stats fetch engineer schedules = Ok all_team_stats →
  dom all_team_stats = list_to_set (map home_team schedules) ∧
  ∀ team sm, all_team_stats !! team = Some sm →
    create_rolling_features engineer (fetch team) = Ok sm.
Proof.
  unfold build_all_team_stats. intros H.
  assert (∀ t, t ∈ map home_team schedules →
            ∃ sm, all_team_stats !! t = Some sm ∧
                  create_rolling_features engineer (fetch t) = Ok sm) as Hin.
  { intros t Ht. apply (build_loop_lookup _ _ _ _ _ t H).
    by apply unique_elem_of. }
  assert (∀ t, t ∉ map home_team schedules → all_team_stats !! t = None) as Hout.
  { intros t Ht.
    rewrite (proj2 (build_loop_lookup _ _ _ _ _ t H)); [done|].
    by rewrite unique_elem_of. }
  split.
  - apply set_eq. intros t. rewrite elem_of_dom, elem_of_list_to_set.
    split.
    + intros [sm Hsm]. destruct (decide (t ∈ map home_team schedules)); [done|].
      rewrite Hout in Hsm; done.
    + intros Ht. destruct (Hin t Ht) as (sm & -> & _). by eexists.
  - intros t sm Hsm. destruct (decide (t ∈ map home_team schedules)) as [Ht|Ht].
    + destruct (Hin t Ht) as (sm' & Hsm' & Hcrf). congruence.
    + rewrite (Hout t Ht) in Hsm. done.
Qed.

(** X14: [main] builds the dictionary from the home teams only.  A
    regular-season game whose away team hosts no game of the schedule makes
    the training step of [main] raise KeyError for that team, when the
    dictionary could be built and the games before it went through. *)
Theorem away_only_team_raises (fetch : string → DataFrame)
    (engineer : FeatureEngineer) (earlier later : list ScheduledGame)
    (game : ScheduledGame) (all_team_stats : gmap string DataFrame)
    (rows : list FeatureFrame) :
  build_all_team_stats fetch engineer (earlier ++ game :: later) =
    Ok all_team_stats →
  training_data engineer all_team_stats earlier = Ok rows →
  game_type game = "REG" →
  away_team game ∉ map home_team (earlier ++ game :: later) →
  training_df fetch engineer (earlier ++ game :: later) =
  Err (KeyError (away_team game)).
Proof.
  intros Hbuild Hrows Hreg Haway. unfold training_df.
  rewrite Hbuild, bind_Ok_l. unfold build_all_team_stats in Hbuild.
  destruct (build_loop_lookup _ _ _ _ _ (home_team game) Hbuild) as [Hin _].
  destruct (build_loop_lookup _ _ _ _ _ (away_team game) Hbuild) as [_ Hout].
  destruct Hin as (sm & Hsm & _).
  { apply unique_elem_of. rewrite map_app. apply elem_of_app. right. by left. }
  rewrite unique_elem_of in Hout. specialize (Hout Haway).
  eapply prepare_training_data_split; [done..|].
  unfold game_features, dict_get. by rewrite Hsm, bind_Ok_l, Hout.
Qed.

(** ** Live prediction and training *)

Lemma before_week_all (w : Z) (df : DataFrame) :
  Forall (λ r, week r < w) df → before_week w df = df.
Proof.
  unfold before_week. induction 1 as [|r df Hr _ IH]; [done|].
  by rewrite filter_cons_True, IH.
Qed.

Lemma smoothed_weeks_before (self : FeatureEngineer) (df sm : DataFrame) (w : Z) :
  create_rolling_features self df = Ok sm →
  Forall (λ r, week r < w) df → Forall (λ r, week r < w) sm.
Proof.
  intros H Hall.
  assert (Forall (λ z, z < w) (map week sm)) as Hweeks.
  { rewrite (create_rolling_features_weeks _ _ _ H), sort_values_week_perm.
    by apply Forall_fmap. }
  by apply Forall_fmap in Hweeks.
Qed.

Lemma labels_not_features :
  ("home_win" ∉ feature_names) ∧ ("point_diff" ∉ feature_names).
Proof. split; compute_done. Qed.

(** X15: the live feature row and the training rows are computed alike.
    For a game scheduled after every week the two teams have on record, with
    at least three weeks each, the row the loop appends is the row that
    [main] computes for a live prediction of that pairing, with the two
    labels added: dropping the labels gives back the live row. *)
Theorem live_row_matches_training_row (fetch : string → DataFrame)
    (engineer : FeatureEngineer) (schedules : list ScheduledGame)
    (all_team_stats : gmap string DataFrame) (game : ScheduledGame) :
  build_all_team_stats fetch engineer schedules = Ok all_team_stats →
  home_team game ∈ map home_team schedules →
  away_team game ∈ map home_team schedules →
  Forall (λ r, week r < game_week game) (fetch (home_team game)) →
  Forall (λ r, week r < game_week game) (fetch (away_team game)) →
  (3 ≤ length (fetch (home_team game)))%nat →
  (3 ≤ length (fetch (away_team game)))%nat →
  ∃ live train,
    sb_features fetch engineer (home_team game) (away_team game) = Ok [live] ∧
    game_features engineer all_team_stats game = Ok (Some [train]) ∧
    delete "home_win" (delete "point_diff" train) = live ∧
    ∀ k, k ∈ feature_names → train !! k = live !! k.
Proof.
  intros Hbuild Hhome Haway Hwh Hwa Hlh Hla.
  unfold build_all_team_stats in Hbuild.
  destruct (proj1 (build_loop_lookup _ _ _ _ _ (home_team game) Hbuild))
    as (smh & Hsmh & Hcrfh); [by apply unique_elem_of|].
  destruct (proj1 (build_loop_lookup _ _ _ _ _ (away_team game) Hbuild))
    as (sma & Hsma & Hcrfa); [by apply unique_elem_of|].
  pose proof (create_rolling_features_length _ _ _ Hcrfh) as Hlenh.
  pose proof (create_rolling_features_length _ _ _ Hcrfa) as Hlena.
  pose proof (before_week_all _ _ (smoothed_weeks_before _ _ _ _ Hcrfh Hwh)) as Hbh.
  pose proof (before_week_all _ _ (smoothed_weeks_before _ _ _ _ Hcrfa Hwa)) as Hba.
  destruct (before_week_last_smoothed engineer (game_week game) smh
              (create_rolling_features_has_smoothed _ _ _ Hcrfh))
    as (s1 & Hl1 & Hs1); [unfold prior_weeks; rewrite Hbh; lia|].
  destruct (before_week_last_smoothed engineer (game_week game) sma
              (create_rolling_features_has_smoothed _ _ _ Hcrfa))
    as (s2 & Hl2 & Hs2); [unfold prior_weeks; rewrite Hba; lia|].
  rewrite Hbh in Hl1. rewrite Hba in Hl2.
  destruct (matchup_fields engineer smh sma s1 s2 Hl1 Hl2 Hs1 Hs2)
    as (live & Hlive & _).
  destruct (create_matchup_features_dom _ _ _ _ Hlive) as (live' & [= <-] & Hdom).
  destruct labels_not_features as [Hnw Hnd].
  assert (live !! "home_win" = None ∧ live !! "point_diff" = None) as [Hhw Hpd]
    by (split; apply not_elem_of_dom; by rewrite Hdom).
  exists live. eexists. split; [|split; [|split]].
  - unfold sb_features. by rewrite Hcrfh, bind_Ok_l, Hcrfa, bind_Ok_l.
  - rewrite (game_features_found _ _ _ _ _ Hsmh Hsma).
    unfold prior_weeks. rewrite Hbh, Hba, Hlive, bind_Ok_l.
    destruct (Nat.ltb_spec (length smh) 3); [lia|].
    destruct (Nat.ltb_spec (length sma) 3); [lia|]. reflexivity.
  - rewrite delete_insert_id by by rewrite lookup_insert_ne.
    by rewrite delete_insert_id.
  - intros k Hk.
    assert (k ≠ "home_win" ∧ k ≠ "point_diff") as [H1 H2]
      by (split; by intros ->).
    by rewrite !lookup_insert_ne.
Qed.

(** ** The announcement of [main] *)

Ltac to_Q :=
  unfold Qclt, Qcle, Qcminus, Qcplus, Qcopp, Qc_of_Z, inject_Z in *;
  simpl in *; rewrite ?Qred_correct in *.

Lemma above_half_not_below (p : Qc) :
  (Q2Qc (5 # 10) < p)%Qc → ¬ (p < Qc_of_Z 1 - p)%Qc.
Proof. to_Q. intros H1 H2. lra. Qed.

Lemma below_complement_half (p : Qc) :
  (p < Qc_of_Z 1 - p)%Qc → (Q2Qc (5 # 10) ≤ Qc_of_Z 1 - p)%Qc.
Proof. to_Q. intros H. lra. Qed.

Lemma exactly_half (p : Qc) :
  ¬ (Q2Qc (5 # 10) < p)%Qc → ¬ (p < Qc_of_Z 1 - p)%Qc →
  p = Q2Qc (5 # 10) ∧ (Qc_of_Z 1 - p)%Qc = p.
Proof.
  intros H1 H2.
  assert (p = Q2Qc (5 # 10)) as ->.
  { apply Qc_is_canon. revert H1 H2. to_Q. intros H1 H2. lra. }
  split; [done|]. by apply Qc_is_canon.
Qed.

(** X16: for a blended probability that is a number, the team named on the
    last line of the report is the one whose printed probability is the
    announced percentage, and that percentage is at least one half; team 1
    is named exactly when its probability exceeds one half, so an even
    split names team 2. *)
Theorem announcement_consistent (team1 team2 : string) (p : Qc) :
  team1 ≠ team2 →
  ∃ q, announced_confidence (Num p) = Num q ∧
       (Q2Qc (5 # 10) ≤ q)%Qc ∧
       printed_proba team1 team2 (announced_winner team1 team2 (Num p)) (Num p)
       = Num q ∧
       (announced_winner team1 team2 (Num p) = team1 ↔ (Q2Qc (5 # 10) < p)%Qc).
Proof.
  intros Hne.
  unfold announced_confidence, announced_winner, printed_proba, py_max,
    cell_gt, one_half, cell_sub.
  destruct (decide (Q2Qc (5 # 10) < p)%Qc) as [Hp|Hp].
  - rewrite (bool_decide_eq_true_2 _ Hp).
    rewrite (bool_decide_eq_false_2 _ (above_half_not_below p Hp)).
    exists p. split; [done|]. split; [by apply Qclt_le_weak|].
    split; [by destruct (decide (team1 = team1))|done].
  - rewrite (bool_decide_eq_false_2 _ Hp).
    destruct (decide (team2 = team1)) as [?|_]; [done|].
    destruct (decide (p < Qc_of_Z 1 - p)%Qc) as [Hq|Hq].
    + rewrite (bool_decide_eq_true_2 _ Hq). eexists. split; [done|].
      split; [by apply below_complement_half|]. split; [done|].
      split; [by intros ?|done].
    + rewrite (bool_decide_eq_false_2 _ Hq).
      destruct (exactly_half p Hp Hq) as [Hhalf Hcomp].
      exists p. split; [done|]. split; [rewrite Hhalf; apply Qcle_refl|].
      split; [by rewrite Hcomp|]. split; [by intros ?|done].
Qed.

(** ** What the features read *)

Lemma row_get_same (self : FeatureEngineer) (r r' : Row) (f : string) :
  (∀ c, c ∈ rolling_cols →
     vals r !! rolling_name self c = vals r' !! rolling_name self c) →
  f ∈ rolling_cols →
  row_get (rolling_name self f) r = row_get (rolling_name self f) r'.
Proof. intros H Hf. unfold row_get. by rewrite (H f Hf). Qed.

(** X17: the builder reads nothing but the seven smoothed columns of the two
    last rows: tables whose last rows agree on these columns give the same
    result, the same exception included, whatever their weeks, their raw
    columns and their earlier rows are. *)
Theorem matchup_reads_smoothed_columns (self : FeatureEngineer)
    (team1 team1' team2 team2' : DataFrame) (s1 s1' s2 s2' : Row) :
  last team1 = Some s1 → last team1' = Some s1' →
  last team2 = Some s2 → last team2' = Some s2' →
  (∀ c, c ∈ rolling_cols →
     vals s1 !! rolling_name self c = vals s1' !! rolling_name self c) →
  (∀ c, c ∈ rolling_cols →
     vals s2 !! rolling_name self c = vals s2' !! rolling_name self c) →
  create_matchup_features self team1 team2 =
  create_matchup_features self team1' team2'.
Proof.
  intros H1 H1' H2 H2' Hs1 Hs2.
  unfold create_matchup_features, iloc_last, diff_of.
  rewrite H1, H1', H2, H2', !bind_Ok_l.
  rewrite !(row_get_same self s1 s1' _ Hs1), !(row_get_same self s2 s2' _ Hs2)
    by compute_done.
  done.
Qed.

(** X18: the scores of a game reach its training row through the two labels
    only: two games that differ in nothing but their scores are skipped
    together or give rows with the same twelve features, and the same
    exception when the pass raises. *)
Theorem features_ignore_scores (self : FeatureEngineer)
    (all_team_stats : gmap string DataFrame) (game : ScheduledGame)
    (home_score' away_score' : Z) :
  let game' := mkGame (game_type game) (game_week game) (home_team game)
                 (away_team game) home_score' away_score' in
  match game_features self all_team_stats game,
        game_features self all_team_stats game' with
  | Ok (Some f), Ok (Some f') =>
      ∃ row row', f = [row] ∧ f' = [row'] ∧
        ∀ k, k ∈ feature_names → row !! k = row' !! k
  | Ok None, Ok None => True
  | Err e, Err e' => e = e'
  | _, _ => False
  end.
Proof.
  intros game'. unfold game_features, dict_get. simpl.
  destruct (all_team_stats !! home_team game) as [home|]; [|done].
  rewrite !bind_Ok_l.
  destruct (all_team_stats !! away_team game) as [away|]; [|done].
  rewrite !bind_Ok_l.
  destruct (_ || _)%nat; [done|].
  destruct (create_matchup_features self _ _) as [f|e] eqn:Hf; [|done].
  rewrite !bind_Ok_l.
  apply create_matchup_features_one_row in Hf as [row ->].
  eexists _, _. split; [reflexivity|]. split; [reflexivity|].
  intros k Hk. destruct labels_not_features as [Hnw Hnd].
  assert (k ≠ "home_win" ∧ k ≠ "point_diff") as [K1 K2]
    by (split; by intros ->).
  by rewrite !lookup_insert_ne.
Qed.


(** * The further properties at concrete inputs *)

Lemma smoothed_table_sorted_witness :
  create_rolling_features engineer5 SEA_stats = Ok SEA_smoothed ∧
  ascending (map week SEA_smoothed) ∧
  map week SEA_smoothed ≡ₚ map week SEA_stats ∧
  length SEA_smoothed = length SEA_stats.
Proof.
  assert (create_rolling_features engineer5 SEA_stats = Ok SEA_smoothed) as H
    by (vm_compute; reflexivity).
  split; [exact H|].
  exact (smoothed_table_sorted engineer5 SEA_stats SEA_smoothed H).
Defined.

Lemma smoothed_table_keeps_columns_witness :
  create_rolling_features engineer5 SEA_stats = Ok SEA_smoothed ∧
  SEA_smoothed !! 4%nat = Some (last_row SEA_smoothed) ∧
  ∃ r, sort_values_week SEA_stats !! 4%nat = Some r ∧
       week (last_row SEA_smoothed) = week r ∧
       (∀ k, k ∉ smoothed_names engineer5 →
             vals (last_row SEA_smoothed) !! k = vals r !! k) ∧
       dom (vals (last_row SEA_smoothed)) =
       dom (vals r) ∪ smoothed_names engineer5.
Proof.
  assert (create_rolling_features engineer5 SEA_stats = Ok SEA_smoothed) as H
    by (vm_compute; reflexivity).
  assert (SEA_smoothed !! 4%nat = Some (last_row SEA_smoothed)) as Hi
    by (vm_compute; reflexivity).
  split; [exact H|]. split; [exact Hi|].
  exact (smoothed_table_keeps_columns engineer5 SEA_stats SEA_smoothed 4
           (last_row SEA_smoothed) H Hi).
Defined.

Lemma smoothing_twice_witness :
  create_rolling_features engineer5 SEA_stats = Ok SEA_smoothed ∧
  create_rolling_features engineer5 SEA_smoothed = Ok SEA_smoothed.
Proof.
  assert (create_rolling_features engineer5 SEA_stats = Ok SEA_smoothed) as H
    by (vm_compute; reflexivity).
  split; [exact H|].
  exact (smoothing_twice engineer5 SEA_stats SEA_smoothed H).
Defined.

Lemma smoothing_ignores_row_order_witness :
  SEA_stats ≡ₚ reverse SEA_stats ∧ NoDup (map week SEA_stats) ∧
  create_rolling_features engineer5 SEA_stats =
  create_rolling_features engineer5 (reverse SEA_stats).
Proof.
  assert (SEA_stats ≡ₚ reverse SEA_stats) as H1
    by (symmetry; apply reverse_Permutation).
  assert (NoDup (map week SEA_stats)) as H2 by compute_done.
  split; [exact H1|]. split; [exact H2|].
  exact (smoothing_ignores_row_order engineer5 SEA_stats (reverse SEA_stats)
           H1 H2).
Defined.

Lemma smoothing_commutes_with_restriction_witness :
  create_rolling_features engineer5 SEA_stats = Ok SEA_smoothed ∧
  create_rolling_features engineer5 (before_week 4 SEA_stats) =
  Ok (before_week 4 SEA_smoothed).
Proof.
  assert (create_rolling_features engineer5 SEA_stats = Ok SEA_smoothed) as H
    by (vm_compute; reflexivity).
  split; [exact H|].
  exact (smoothing_commutes_with_restriction engineer5 SEA_stats SEA_smoothed 4 H).
Defined.

Lemma smoother_outcomes_witness :
  (SEA_stats ≠ [] ∧ 1 ≤ window_size engineer5 ∧ raw_present SEA_stats) ∧
  (SEA_stats ≠ [] ∧ window_size engineer0 ≤ 0 ∧
   create_rolling_features engineer0 SEA_stats =
   Err (ValueError "min_periods must be <= window")).
Proof.
  assert (SEA_stats ≠ []) as H by discriminate.
  split.
  - split; [exact H|].
    pose proof (smoother_outcomes engineer5 SEA_stats H) as Hm.
    assert (create_rolling_features engineer5 SEA_stats =
            Ok (smoothed_table engineer5 SEA_stats)) as E
      by (vm_compute; reflexivity).
    rewrite E in Hm. exact Hm.
  - split; [exact H|].
    pose proof (smoother_outcomes engineer0 SEA_stats H) as Hm.
    assert (create_rolling_features engineer0 SEA_stats =
            Err (ValueError "min_periods must be <= window")) as E
      by (vm_compute; reflexivity).
    rewrite E in Hm. split; [exact (proj1 Hm)|exact E].
Defined.

Lemma feature_columns_witness :
  (∃ row, create_matchup_features engineer5 SEA_smoothed NE_smoothed = Ok [row] ∧
          dom row = feature_names) ∧
  Forall (λ row, dom row = feature_names ∪ label_names ∧
                 dom row ∖ label_names = feature_names)
         (table_or_empty
            (prepare_training_data engineer5 (stats_with_home SEA_stats)
               [game_week6; game_tie])).
Proof.
  assert (create_matchup_features engineer5 SEA_smoothed NE_smoothed =
          Ok (table_or_empty
                (create_matchup_features engineer5 SEA_smoothed NE_smoothed)))
    as H1 by (vm_compute; reflexivity).
  assert (prepare_training_data engineer5 (stats_with_home SEA_stats)
            [game_week6; game_tie] =
          Ok (table_or_empty
                (prepare_training_data engineer5 (stats_with_home SEA_stats)
                   [game_week6; game_tie]))) as H2 by (vm_compute; reflexivity).
  split.
  - destruct (proj1 (feature_columns engineer5) _ _ _ H1) as (row & Hrow & Hdom).
    exists row. rewrite H1, Hrow. by split.
  - exact (proj2 (feature_columns engineer5) _ _ _ H2).
Defined.

Lemma matchup_with_other_window_witness :
  create_rolling_features engineer5 SEA_stats = Ok SEA_smoothed ∧
  SEA_stats ≠ [] ∧ NE_smoothed ≠ [] ∧
  window_size engineer5 ≠ window_size engineer3 ∧
  Forall (λ r, vals r !! rolling_name engineer3 "points" = None) SEA_stats ∧
  create_matchup_features engineer3 SEA_smoothed NE_smoothed =
  Err (KeyError (rolling_name engineer3 "points")).
Proof.
  assert (create_rolling_features engineer5 SEA_stats = Ok SEA_smoothed) as H
    by (vm_compute; reflexivity).
  assert (SEA_stats ≠ []) as H1 by (vm_compute; discriminate).
  assert (NE_smoothed ≠ []) as H2 by (vm_compute; discriminate).
  assert (window_size engineer5 ≠ window_size engineer3) as H3
    by (vm_compute; discriminate).
  assert (Forall (λ r, vals r !! rolling_name engineer3 "points" = None)
            SEA_stats) as H4 by (vm_compute; repeat constructor).
  split; [exact H|]. split; [exact H1|]. split; [exact H2|].
  split; [exact H3|]. split; [exact H4|].
  exact (matchup_with_other_window engineer5 engineer3 SEA_stats SEA_smoothed
           NE_smoothed H H1 H2 H3 H4).
Defined.

Lemma missing_team_raises_witness :
  training_data engineer5 (stats_with_home SEA_stats) [game_week6] =
    Ok (frames_or_empty
          (training_data engineer5 (stats_with_home SEA_stats) [game_week6])) ∧
  game_type game_unknown_home = "REG" ∧
  stats_with_home SEA_stats !! home_team game_unknown_home = None ∧
  prepare_training_data engineer5 (stats_with_home SEA_stats)
    ([game_week6] ++ game_unknown_home :: [game_tie]) =
  Err (KeyError (home_team game_unknown_home)).
Proof.
  assert (training_data engineer5 (stats_with_home SEA_stats) [game_week6] =
          Ok (frames_or_empty
                (training_data engineer5 (stats_with_home SEA_stats)
                   [game_week6]))) as H by (vm_compute; reflexivity).
  assert (game_type game_unknown_home = "REG") as H1 by reflexivity.
  assert (stats_with_home SEA_stats !! home_team game_unknown_home = None)
    as H2 by (vm_compute; reflexivity).
  split; [exact H|]. split; [exact H1|]. split; [exact H2|].
  exact (proj1 (missing_team_raises engineer5 (stats_with_home SEA_stats)
                  [game_week6] [game_tie] game_unknown_home _ H H1) H2).
Defined.

Lemma training_table_size_witness :
  prepare_training_data engineer5 (stats_with_home SEA_stats)
    [game_week6; game_tie] =
    Ok (table_or_empty
          (prepare_training_data engineer5 (stats_with_home SEA_stats)
             [game_week6; game_tie])) ∧
  table_or_empty
    (prepare_training_data engineer5 (stats_with_home SEA_stats)
       [game_week6; game_tie]) ≠ [] ∧
  length (table_or_empty
            (prepare_training_data engineer5 (stats_with_home SEA_stats)
               [game_week6; game_tie])) =
    length (filter (λ g, adds_row engineer5 (stats_with_home SEA_stats) g = true)
              [game_week6; game_tie]) ∧
  (length (table_or_empty
             (prepare_training_data engineer5 (stats_with_home SEA_stats)
                [game_week6; game_tie])) ≤
   length (filter (λ g, game_type g = "REG") [game_week6; game_tie]))%nat.
Proof.
  assert (prepare_training_data engineer5 (stats_with_home SEA_stats)
            [game_week6; game_tie] =
          Ok (table_or_empty
                (prepare_training_data engineer5 (stats_with_home SEA_stats)
                   [game_week6; game_tie]))) as H by (vm_compute; reflexivity).
  split; [exact H|].
  exact (training_table_size engineer5 (stats_with_home SEA_stats)
           [game_week6; game_tie] _ H).
Defined.

Lemma assembler_on_smoothed_tables_witness :
  (∀ team sm, stats_with_home SEA_stats !! team = Some sm →
     Forall (λ r, has_smoothed engineer5 r = true) sm) ∧
  (∀ g, g ∈ [game_week6; game_week4; game_tie] → game_type g = "REG" →
     is_Some (stats_with_home SEA_stats !! home_team g) ∧
     is_Some (stats_with_home SEA_stats !! away_team g)) ∧
  (∃ rows, training_data engineer5 (stats_with_home SEA_stats)
             [game_week6; game_week4; game_tie] = Ok rows ∧
           length rows =
             length (filter (λ g, eligible (stats_with_home SEA_stats) g = true)
                       [game_week6; game_week4; game_tie]) ∧
           Forall (λ f, length f = 1%nat) rows).
Proof.
  assert (∀ team sm, stats_with_home SEA_stats !! team = Some sm →
            Forall (λ r, has_smoothed engineer5 r = true) sm) as H1.
  { intros team sm. unfold stats_with_home.
    intros [[_ <-]|[_ [_ <-]%lookup_singleton_Some]]%lookup_insert_Some.
    - apply (create_rolling_features_has_smoothed engineer5 SEA_stats).
      vm_compute; reflexivity.
    - apply (create_rolling_features_has_smoothed engineer5 NE_stats).
      vm_compute; reflexivity. }
  assert (∀ g, g ∈ [game_week6; game_week4; game_tie] → game_type g = "REG" →
            is_Some (stats_with_home SEA_stats !! home_team g) ∧
            is_Some (stats_with_home SEA_stats !! away_team g)) as H2.
  { intros g Hg _.
    repeat (apply elem_of_cons in Hg as [->|Hg]);
      [..|by apply elem_of_nil in Hg]; split; by eexists. }
  split; [exact H1|]. split; [exact H2|].
  exact (proj1 (assembler_on_smoothed_tables engineer5 (stats_with_home SEA_stats)
                  [game_week6; game_week4; game_tie] H1 H2)).
Defined.

Lemma built_dictionary_witness :
  build_all_team_stats fetch_season engineer5 sample_schedule =
    Ok (built_stats fetch_season) ∧
  dom (built_stats fetch_season) = list_to_set (map home_team sample_schedule) ∧
  ∀ team sm, built_stats fetch_season !! team = Some sm →
    create_rolling_features engineer5 (fetch_season team) = Ok sm.
Proof.
  assert (build_all_team_stats fetch_season engineer5 sample_schedule =
          Ok (built_stats fetch_season)) as H by (vm_compute; reflexivity).
  split; [exact H|].
  exact (built_dictionary fetch_season engineer5 sample_schedule _ H).
Defined.

Lemma away_only_team_raises_witness :
  build_all_team_stats fetch_season engineer5 ([] ++ game_week4 :: []) =
    Ok (built_for fetch_season one_host_schedule) ∧
  game_type game_week4 = "REG" ∧
  (away_team game_week4 ∉ map home_team ([] ++ game_week4 :: [])) ∧
  training_df fetch_season engineer5 ([] ++ game_week4 :: []) =
  Err (KeyError (away_team game_week4)).
Proof.
  assert (build_all_team_stats fetch_season engineer5 ([] ++ game_week4 :: []) =
          Ok (built_for fetch_season one_host_schedule)) as H
    by (vm_compute; reflexivity).
  assert (training_data engineer5 (built_for fetch_season one_host_schedule) [] =
          Ok []) as H0 by reflexivity.
  assert (game_type game_week4 = "REG") as H1 by reflexivity.
  assert (away_team game_week4 ∉ map home_team ([] ++ game_week4 :: [])) as H2
    by compute_done.
  split; [exact H|]. split; [exact H1|]. split; [exact H2|].
  exact (away_only_team_raises fetch_season engineer5 [] [] game_week4 _ _
           H H0 H1 H2).
Defined.

Lemma live_row_matches_training_row_witness :
  build_all_team_stats fetch_season engineer5 sample_schedule =
    Ok (built_stats fetch_season) ∧
  home_team game_week6 ∈ map home_team sample_schedule ∧
  away_team game_week6 ∈ map home_team sample_schedule ∧
  Forall (λ r, week r < game_week game_week6) (fetch_season (home_team game_week6)) ∧
  Forall (λ r, week r < game_week game_week6) (fetch_season (away_team game_week6)) ∧
  ∃ live train,
    sb_features fetch_season engineer5 (home_team game_week6)
      (away_team game_week6) = Ok [live] ∧
    game_features engineer5 (built_stats fetch_season) game_week6 =
      Ok (Some [train]) ∧
    delete "home_win" (delete "point_diff" train) = live ∧
    ∀ k, k ∈ feature_names → train !! k = live !! k.
Proof.
  assert (build_all_team_stats fetch_season engineer5 sample_schedule =
          Ok (built_stats fetch_season)) as H by (vm_compute; reflexivity).
  assert (home_team game_week6 ∈ map home_team sample_schedule) as H1
    by compute_done.
  assert (away_team game_week6 ∈ map home_team sample_schedule) as H2
    by compute_done.
  assert (Forall (λ r, week r < game_week game_week6)
            (fetch_season (home_team game_week6))) as H3 by compute_done.
  assert (Forall (λ r, week r < game_week game_week6)
            (fetch_season (away_team game_week6))) as H4 by compute_done.
  split; [exact H|]. split; [exact H1|]. split; [exact H2|].
  split; [exact H3|]. split; [exact H4|].
  apply (live_row_matches_training_row fetch_season engineer5 sample_schedule
           _ game_week6 H H1 H2 H3 H4); vm_compute; lia.
Defined.

Lemma announcement_consistent_witness :
  "SEA" ≠ "NE" ∧
  ∃ q, announced_confidence (Num (Q2Qc (62 # 100))) = Num q ∧
       (Q2Qc (5 # 10) ≤ q)%Qc ∧
       printed_proba "SEA" "NE"
         (announced_winner "SEA" "NE" (Num (Q2Qc (62 # 100))))
         (Num (Q2Qc (62 # 100))) = Num q ∧
       (announced_winner "SEA" "NE" (Num (Q2Qc (62 # 100))) = "SEA" ↔
        (Q2Qc (5 # 10) < Q2Qc (62 # 100))%Qc).
Proof.
  assert ("SEA" ≠ "NE") as H by discriminate.
  split; [exact H|].
  exact (announcement_consistent "SEA" "NE" (Q2Qc (62 # 100)) H).
Defined.

Lemma matchup_reads_smoothed_columns_witness :
  last SEA_smoothed = Some (last_row SEA_smoothed) ∧
  last NE_smoothed = Some (last_row NE_smoothed) ∧
  create_matchup_features engineer5 SEA_smoothed NE_smoothed =
  create_matchup_features engineer5 [last_row SEA_smoothed]
    [mkRow 0 (vals (last_row NE_smoothed))].
Proof.
  assert (last SEA_smoothed = Some (last_row SEA_smoothed)) as H1
    by (vm_compute; reflexivity).
  assert (last NE_smoothed = Some (last_row NE_smoothed)) as H2
    by (vm_compute; reflexivity).
  split; [exact H1|]. split; [exact H2|].
  exact (matchup_reads_smoothed_columns engineer5 SEA_smoothed
           [last_row SEA_smoothed] NE_smoothed
           [mkRow 0 (vals (last_row NE_smoothed))]
           _ _ _ _ H1 eq_refl H2 eq_refl
           (λ _ _, eq_refl) (λ _ _, eq_refl)).
Defined.
